(** * dax-momentum: the momentum back-test engine

    A shallow embedding of [src/utils.py] ([momentum_backtest]), of the
    inline pipeline of [src/backtest.py] and of the argument validation of
    [src/cli_backtest.py].

    Numbers.  The program computes on pandas [float64] series.  A float is
    idealised as a real number ([R]): rounding and overflow are not
    modelled, and a statement that depends on the range of float64 bounds
    the real values by [float64_max].  A missing cell (pandas' NaN, as produced by [shift],
    [pct_change], [diff], an under-filled [rolling] window, and by the
    reductions [mean], [std] and [min] on too short a series) is [None].

    Prices are positive (data model of the specification), and on such a
    series no division of the pipeline has a zero divisor.  On a zero
    price float64 would give [inf] or NaN where [R] has a total division;
    no statement below depends on the value of such a quotient.

    Errors.  The engine raises [ValueError] with one of two messages; the
    two cases are the constructors of [Utils.error]. *)

From Stdlib Require Import Reals Lra Lia List ZArith Bool.
Import ListNotations.
Local Open Scope R_scope.

(** ** The pandas / NumPy operations the program calls *)

Module Pandas.

(** A series without missing cells, and one that may have some. *)
Definition series := list R.
Definition nseries := list (option R).

(** Element-wise binary operation of two series over the same index. *)
Fixpoint zip_with {A B C : Type} (f : A -> B -> C) (xs : list A) (ys : list B)
  : list C :=
  match xs, ys with
  | x :: xs', y :: ys' => f x y :: zip_with f xs' ys'
  | _, _ => []
  end.

(** [s.fillna(d)] *)
Definition fillna (d : R) (s : nseries) : series :=
  map (fun c => match c with Some x => x | None => d end) s.

(** [s.shift(1)]: same length, first cell missing. *)
Definition shift {A : Type} (s : list A) : list (option A) :=
  firstn (length s) (None :: map Some s).

(** [f] applied to each cell and the cell one period before it. *)
Definition lagged (f : R -> R -> R) (s : series) : nseries :=
  zip_with (fun cur prev => option_map (f cur) prev) s (shift s).

(** [s.pct_change()], that is [s / s.shift(1) - 1]. *)
Definition pct_change : series -> nseries :=
  lagged (fun cur prev => cur / prev - 1).

(** [s.diff()], that is [s - s.shift(1)]. *)
Definition diff : series -> nseries :=
  lagged (fun cur prev => cur - prev).

(** [s.abs()] *)
Definition abs (s : nseries) : nseries := map (option_map Rabs) s.

(** [s.sum()] *)
Definition sum (s : series) : R := fold_right Rplus 0 s.

(** The [w] cells that end at index [i] (for [w <= i + 1]). *)
Definition window (w i : nat) (s : series) : series :=
  firstn w (skipn (i + 1 - w) s).

(** [s.rolling(w).sum()]: [min_periods] is [w], so the cells before index
    [w - 1] are missing. *)
Definition rolling_sum (w : nat) (s : series) : nseries :=
  map (fun i => if (i + 1 <? w)%nat then None else Some (sum (window w i s)))
      (seq 0 (length s)).

(** [c > v] on a cell: a comparison with NaN is False. *)
Definition gt (c : option R) (v : R) : bool :=
  match c with
  | Some x => if Rlt_dec v x then true else false
  | None => false
  end.

(** [.astype(int)] on a boolean. *)
Definition astype_int (b : bool) : Z := if b then 1%Z else 0%Z.

(** [s.mean()]: NaN on an empty series. *)
Definition mean (s : series) : option R :=
  match s with
  | [] => None
  | _ => Some (sum s / INR (length s))
  end.

(** [s.std()]: the sample standard deviation ([ddof=1], pandas' default),
    NaN with fewer than two cells. *)
Definition std (s : series) : option R :=
  match mean s with
  | None => None
  | Some m =>
      if (length s <=? 1)%nat then None
      else Some (sqrt (sum (map (fun x => (x - m) * (x - m)) s)
                       / INR (length s - 1)))
  end.

(** Running fold: [scan f a [x1; x2; ...] = [f a x1; f (f a x1) x2; ...]]. *)
Fixpoint scan (f : R -> R -> R) (acc : R) (s : series) : series :=
  match s with
  | [] => []
  | x :: s' => f acc x :: scan f (f acc x) s'
  end.

Definition cumulative (f : R -> R -> R) (s : series) : series :=
  match s with
  | [] => []
  | x :: s' => x :: scan f x s'
  end.

(** [s.cumprod()] and [s.cummax()] *)
Definition cumprod : series -> series := cumulative Rmult.
Definition cummax : series -> series := cumulative Rmax.

(** [s.min()]: NaN on an empty series. *)
Definition min (s : series) : option R :=
  match s with
  | [] => None
  | x :: s' => Some (fold_left Rmin s' x)
  end.

(** [s.iloc[-1]] of a non-empty series. *)
Definition iloc_last (s : series) : R := last s 0.

(** [x ** (a / n)] for a NumPy float [x] and the quotient of two positive
    Python integers: the real power of a positive base; [0] for base [0]
    (the exponent is positive); for a negative base NaN, unless the
    exponent is an integer. *)
Definition pow_ratio (x : R) (a : Z) (n : nat) : option R :=
  if Rlt_dec 0 x then Some (Rpower x (IZR a / INR n))
  else if Req_dec_T x 0 then Some 0
  else if (a mod Z.of_nat n =? 0)%Z then Some (x ^ Z.to_nat (a / Z.of_nat n))
  else None.

End Pandas.

(** ** [src/utils.py] *)

Module Utils.
Import Pandas.

(** The two [ValueError]s of [momentum_backtest]: "Lookback window must be
    positive" and "Not enough data points. Need at least [need], got [got]". *)
Inductive error : Type :=
| InvalidParameter
| InsufficientData (need got : Z).

(** The returned dictionary. *)
Record results : Type := mk_results {
  r_cagr : option R;
  r_sharpe : option R;
  r_max_dd : option R;
  r_returns : series;
  r_equity : series
}.

(** [ret = prices.pct_change().fillna(0)] *)
Definition ret (prices : series) : series := fillna 0 (pct_change prices).

(** [signal = (ret.rolling(lookback).sum() > 0).astype(int)] *)
Definition signal (prices : series) (lookback : Z) : list Z :=
  map (fun c => astype_int (gt c 0))
      (rolling_sum (Z.to_nat lookback) (ret prices)).

(** [pos = signal.shift(1).fillna(0)]: the shift turns the integers into
    floats. *)
Definition pos (prices : series) (lookback : Z) : series :=
  fillna 0 (map (option_map IZR) (shift (signal prices lookback))).

(** [strategy_ret = pos * ret - fee * pos.diff().abs().fillna(0)] *)
Definition strategy_ret (prices : series) (lookback : Z) (fee : R) : series :=
  zip_with Rminus
    (zip_with Rmult (pos prices lookback) (ret prices))
    (map (Rmult fee) (fillna 0 (abs (diff (pos prices lookback))))).

(** Trading days per year. *)
Definition ann : Z := 252.

(** The Sharpe ratio: [0.0] when [std() == 0] (False on NaN), else
    [(mean() / std()) * np.sqrt(ann)]. *)
Definition sharpe (sr : series) : option R :=
  match std sr with
  | Some s =>
      if Req_dec_T s 0 then Some 0
      else option_map (fun m => m / s * sqrt (IZR ann)) (mean sr)
  | None => None
  end.

(** [equity = (1 + strategy_ret).cumprod()] *)
Definition equity (sr : series) : series := cumprod (map (Rplus 1) sr).

(** CAGR, with the guard on an empty series and a non-positive final
    equity. *)
Definition cagr (sr eq : series) : option R :=
  if (length sr =? 0)%nat then Some 0
  else if Rle_dec (iloc_last eq) 0 then Some 0
  else option_map (fun v => v - 1) (pow_ratio (iloc_last eq) ann (length sr)).

(** [mdd = (equity / equity.cummax() - 1).min()] *)
Definition mdd (eq : series) : option R :=
  min (zip_with (fun e m => e / m - 1) eq (cummax eq)).

Definition momentum_backtest (prices : series) (lookback : Z) (fee : R)
  : error + results :=
  if (lookback <=? 0)%Z then inl InvalidParameter
  else if (Z.of_nat (length prices) <? lookback + 2)%Z then
    inl (InsufficientData (lookback + 2) (Z.of_nat (length prices)))
  else
    let sr := strategy_ret prices lookback fee in
    let eq := equity sr in
    inr {| r_cagr := cagr sr eq;
           r_sharpe := sharpe sr;
           r_max_dd := mdd eq;
           r_returns := sr;
           r_equity := eq |}.

End Utils.

(** ** [src/backtest.py]: the standalone script

    The script reads the price series from a CSV file and runs the
    pipeline inline, with the window and the fee written as literals; the
    three printed metrics are its result. *)

Module Backtest.
Import Pandas.

Record report : Type := mk_report {
  p_cagr : option R;
  p_sharpe : option R;
  p_mdd : option R
}.

(** [ret = prices.pct_change().fillna(0)] *)
Definition ret (prices : series) : series := fillna 0 (pct_change prices).

(** [signal = (ret.rolling(3).sum() > 0).astype(int)] *)
Definition signal (prices : series) : list Z :=
  map (fun c => astype_int (gt c 0)) (rolling_sum 3 (ret prices)).

(** [pos = signal.shift(1).fillna(0)] *)
Definition pos (prices : series) : series :=
  fillna 0 (map (option_map IZR) (shift (signal prices))).

(** [fee = 0.0001] *)
Definition fee : R := 0.0001.

(** [strategy_ret = pos * ret - fee * pos.diff().abs().fillna(0)] *)
Definition strategy_ret (prices : series) : series :=
  zip_with Rminus
    (zip_with Rmult (pos prices) (ret prices))
    (map (Rmult fee) (fillna 0 (abs (diff (pos prices))))).

Definition ann : Z := 252.

Definition sharpe (prices : series) : option R :=
  match std (strategy_ret prices) with
  | Some s =>
      if Req_dec_T s 0 then Some 0
      else option_map (fun m => m / s * sqrt (IZR ann))
                      (mean (strategy_ret prices))
  | None => None
  end.

(** [equity = (1 + strategy_ret).cumprod()] *)
Definition equity (prices : series) : series :=
  cumprod (map (Rplus 1) (strategy_ret prices)).

(** CAGR: only the empty series is guarded. *)
Definition cagr (prices : series) : option R :=
  if (length (strategy_ret prices) =? 0)%nat then Some 0
  else option_map (fun v => v - 1)
         (pow_ratio (iloc_last (equity prices)) ann
                    (length (strategy_ret prices))).

(** [mdd = (equity / equity.cummax() - 1).min()] *)
Definition mdd (prices : series) : option R :=
  min (zip_with (fun e m => e / m - 1) (equity prices)
                (cummax (equity prices))).

Definition script (prices : series) : report :=
  {| p_cagr := cagr prices; p_sharpe := sharpe prices; p_mdd := mdd prices |}.

End Backtest.

(** ** [src/cli_backtest.py]: the command-line entry point

    [main] up to the printing of the metrics: the parsed arguments are
    validated, the data file is loaded ([None]: the file does not exist)
    and the engine is called; every failure ends in [sys.exit(1)]. *)

Module CliBacktest.
Import Pandas.

Inductive outcome : Type :=
| Exit (status : Z)
| Reported (r : Utils.results).

Definition main (window : Z) (fee : R) (data : option series) : outcome :=
  if (window <=? 0)%Z then Exit 1          (* "Error: Window must be positive" *)
  else if Rlt_dec fee 0 then Exit 1        (* "Error: Fee cannot be negative" *)
  else
    match data with
    | None => Exit 1                       (* "Error: Data file not found" *)
    | Some [] => Exit 1                    (* [prices.index[0]]: IndexError *)
    | Some prices =>
        match Utils.momentum_backtest prices window fee with
        | inl _ => Exit 1                  (* [except Exception] *)
        | inr r => Reported r
        end
    end.

End CliBacktest.

(** ** The preconditions of the specification *)

(** A valid input of the engine: positive prices, a positive window, a
    non-negative fee and at least [lookback + 2] prices. *)
Definition valid_input (prices : Pandas.series) (lookback : Z) (fee : R) : Prop :=
  Forall (fun p => 0 < p) prices /\
  (0 < lookback)%Z /\
  0 <= fee /\
  (lookback + 2 <= Z.of_nat (length prices))%Z.

(** The prices of the worked example of the specification. *)
Definition example_prices : Pandas.series := [100; 101; 102; 101; 99; 100; 103].

(** The drawdown of the specification: the running maximum of the equity
    up to period [t], and the relative distance of the equity of period [t]
    below it. *)
Definition running_max (eq : Pandas.series) (t : nat) : R :=
  match firstn (S t) eq with
  | [] => 0
  | x :: s => fold_left Rmax s x
  end.

Definition drawdown (eq : Pandas.series) (t : nat) : R :=
  nth t eq 0 / running_max eq t - 1.

(** A series of four prices, too short for the engine at window 3. *)
Definition short_prices : Pandas.series := [100; 101; 102; 103].

(** A series that loses almost everything on the day the position is
    entered: the final equity is negative. *)
Definition crash_prices : Pandas.series := [100; 101; 102; 0.001; 0.001].

(** A flat series. *)
Definition flat_prices : Pandas.series := [100; 100; 100; 100; 100].

(** The worked example with its last price changed. *)
Definition perturbed_prices : Pandas.series := [100; 101; 102; 101; 99; 100; 50].

(** ** [src/vbt_backtest.py]: the exit signal handed to vectorbt, and the
    fallback

    [main] computes boolean entry and exit signals with pandas and hands
    them to [vbt.Portfolio.from_signals]; the portfolio itself is
    vectorbt's and is not modelled.  The entry signal applies [~] to a
    shifted and filled boolean series, whose result depends on the pandas
    version (the filled series is boolean up to pandas 2 and of object
    type from pandas 3 on); it is not modelled either.  The exit signal
    applies [~] to a boolean series and [&] to the filled one, which
    reads its cells as booleans in every version.  When vectorbt is
    missing or fails, [run_fallback_analysis] calls the engine of
    [utils.py]. *)

Module VbtBacktest.
Import Pandas.

(** [returns = prices.pct_change().fillna(0)] *)
Definition returns (prices : series) : series := fillna 0 (pct_change prices).

(** [lookback = 3] *)
Definition lookback : nat := 3.

(** [momentum_sum = returns.rolling(lookback).sum()] *)
Definition momentum_sum (prices : series) : nseries :=
  rolling_sum lookback (returns prices).

(** [long_signals = momentum_sum > 0] *)
Definition long_signals (prices : series) : list bool :=
  map (fun c => gt c 0) (momentum_sum prices).

(** The cells of [s.fillna(False)] on a shifted boolean series: the
    missing first cell becomes [False]. *)
Definition fillna_bool (d : bool) (s : list (option bool)) : list bool :=
  map (fun c => match c with Some b => b | None => d end) s.

(** [exits = ~long_signals & long_signals.shift(1).fillna(False)] *)
Definition exits (prices : series) : list bool :=
  zip_with andb (map negb (long_signals prices))
    (fillna_bool false (shift (long_signals prices))).



End VbtBacktest.

(** ** The plots of [src/backtest.py] and [src/cli_backtest.py]

    Both write the equity curve, then the histogram of the non-zero
    strategy returns when there is one, then the drawdown. *)

Module Plots.
Import Pandas.

(** [trade_returns = strategy_ret[strategy_ret != 0]] *)
Definition trade_returns (sr : series) : series :=
  filter (fun x => if Req_dec_T x 0 then false else true) sr.

Inductive figure : Type := EquityCurve | Histogram | Drawdown.

(** The figures saved, in order; without a trade return the histogram is
    replaced by the warning "No trades to plot in histogram". *)
Definition figures (sr : series) : list figure :=
  EquityCurve ::
  (if (0 <? length (trade_returns sr))%nat then [Histogram] else []) ++
  [Drawdown].

End Plots.

(** The largest finite float64, [(2 - 2^-52) * 2^1023]: a real number
    above it has no finite float64 near it and is computed as [inf]. *)
Definition float64_max : R := (2 - / 2 ^ 52) * 2 ^ 1023.

(** Prices whose period returns are finite in float64: they are positive,
    and no price is more than [float64_max] times the price before it. *)
Definition finite_returns (prices : Pandas.series) : Prop :=
  Forall (fun p => 0 < p) prices /\
  forall i, (S i < length prices)%nat ->
    nth (S i) prices 0 <= float64_max * nth i prices 0.

(** A valid series on which the strategy multiplies its equity by 5000 in
    three periods. *)
Definition overflow_prices : Pandas.series := [1; 2; 10000].

(** * Properties *)

(** ** Lengths and cells of the pandas operations *)

Section SeriesFacts.
Import Pandas.

Lemma zip_with_length {A B C : Type} (f : A -> B -> C) xs ys :
  length (zip_with f xs ys) = Nat.min (length xs) (length ys).
Proof.
  revert ys; induction xs as [|x xs IH]; intros [|y ys]; simpl; auto.
Qed.

Lemma zip_with_nth_error {A B C : Type} (f : A -> B -> C) xs ys i :
  nth_error (zip_with f xs ys) i =
  match nth_error xs i, nth_error ys i with
  | Some x, Some y => Some (f x y)
  | _, _ => None
  end.
Proof.
  revert ys i; induction xs as [|x xs IH]; intros [|y ys] [|i]; simpl; auto.
  destruct (nth_error xs i); reflexivity.
Qed.

Lemma zip_with_firstn {A B C : Type} (f : A -> B -> C) xs ys k :
  firstn k (zip_with f xs ys) = zip_with f (firstn k xs) (firstn k ys).
Proof.
  revert xs ys; induction k as [|k IH]; intros [|x xs] [|y ys]; simpl; auto.
  f_equal; apply IH.
Qed.

Lemma fillna_length d s : length (fillna d s) = length s.
Proof. apply length_map. Qed.

Lemma shift_length {A : Type} (s : list A) : length (shift s) = length s.
Proof.
  unfold shift. rewrite length_firstn. simpl. rewrite length_map. lia.
Qed.

Lemma shift_nth_error_0 {A : Type} (s : list A) :
  s <> [] -> nth_error (shift s) 0 = Some None.
Proof. destruct s; [congruence | reflexivity]. Qed.

Lemma shift_nth_error_S {A : Type} (s : list A) i :
  (S i < length s)%nat ->
  nth_error (shift s) (S i) = option_map Some (nth_error s i).
Proof.
  intros H. unfold shift. rewrite nth_error_firstn.
  destruct (Nat.ltb_spec (S i) (length s)); [|lia].
  simpl. apply nth_error_map.
Qed.

Lemma lagged_length f s : length (lagged f s) = length s.
Proof.
  unfold lagged. rewrite zip_with_length, shift_length. lia.
Qed.

Lemma lagged_nth_error_0 f s :
  s <> [] -> nth_error (lagged f s) 0 = Some None.
Proof. destruct s; [congruence | reflexivity]. Qed.

Lemma lagged_nth_error_S f s i cur prev :
  nth_error s i = Some prev -> nth_error s (S i) = Some cur ->
  nth_error (lagged f s) (S i) = Some (Some (f cur prev)).
Proof.
  intros Hp Hc. unfold lagged. rewrite zip_with_nth_error, Hc.
  rewrite shift_nth_error_S, Hp; [reflexivity|].
  apply nth_error_Some. congruence.
Qed.

Lemma rolling_sum_length w s : length (rolling_sum w s) = length s.
Proof. unfold rolling_sum. now rewrite length_map, length_seq. Qed.

Lemma rolling_sum_nth_error w s i :
  (i < length s)%nat ->
  nth_error (rolling_sum w s) i =
  Some (if (i + 1 <? w)%nat then None else Some (sum (window w i s))).
Proof.
  intros H. unfold rolling_sum.
  rewrite nth_error_map, nth_error_seq.
  destruct (Nat.ltb_spec i (length s)); [reflexivity | lia].
Qed.

Lemma scan_length f a s : length (scan f a s) = length s.
Proof. revert a; induction s; simpl; auto. Qed.

Lemma cumulative_length f s : length (cumulative f s) = length s.
Proof. destruct s; simpl; [|rewrite scan_length]; reflexivity. Qed.

End SeriesFacts.

(** ** The series of the engine *)

Section EngineSeries.
Import Pandas Utils.

Lemma ret_length prices : length (ret prices) = length prices.
Proof. unfold ret, pct_change. now rewrite fillna_length, lagged_length. Qed.

Lemma signal_length prices lookback :
  length (signal prices lookback) = length prices.
Proof.
  unfold signal. now rewrite length_map, rolling_sum_length, ret_length.
Qed.

Lemma pos_length prices lookback :
  length (pos prices lookback) = length prices.
Proof.
  unfold pos. now rewrite fillna_length, length_map, shift_length, signal_length.
Qed.

Lemma strategy_ret_length prices lookback fee :
  length (strategy_ret prices lookback fee) = length prices.
Proof.
  unfold strategy_ret.
  rewrite !zip_with_length, length_map, fillna_length.
  unfold abs, diff. rewrite length_map, lagged_length, pos_length, ret_length.
  lia.
Qed.

Lemma equity_length sr : length (equity sr) = length sr.
Proof. unfold equity, cumprod. now rewrite cumulative_length, length_map. Qed.

Lemma nth_error_fillna d s i :
  nth_error (fillna d s) i =
  option_map (fun c => match c with Some x => x | None => d end) (nth_error s i).
Proof. apply nth_error_map. Qed.

Lemma ret_nth_error_0 prices :
  prices <> [] -> nth_error (ret prices) 0 = Some 0.
Proof.
  intros H. unfold ret, pct_change.
  now rewrite nth_error_fillna, lagged_nth_error_0.
Qed.

Lemma ret_nth_error_S prices i p q :
  nth_error prices i = Some q -> nth_error prices (S i) = Some p ->
  nth_error (ret prices) (S i) = Some (p / q - 1).
Proof.
  intros Hq Hp. unfold ret, pct_change.
  rewrite nth_error_fillna.
  now rewrite (lagged_nth_error_S _ _ _ _ _ Hq Hp).
Qed.

(** The signal at a period: [0] while the window is under-filled, and the
    sign test of the trailing sum afterwards. *)
Lemma signal_nth_error prices lookback t :
  (t < length prices)%nat ->
  nth_error (signal prices lookback) t =
  Some (if (t + 1 <? Z.to_nat lookback)%nat then 0%Z
        else if Rlt_dec 0 (sum (window (Z.to_nat lookback) t (ret prices)))
             then 1%Z else 0%Z).
Proof.
  intros H. unfold signal.
  rewrite nth_error_map, rolling_sum_nth_error by now rewrite ret_length.
  simpl. destruct (t + 1 <? Z.to_nat lookback)%nat; simpl; [reflexivity|].
  destruct (Rlt_dec _ _); reflexivity.
Qed.

Lemma pos_nth_error_0 prices lookback :
  prices <> [] -> nth_error (pos prices lookback) 0 = Some 0.
Proof.
  intros H. unfold pos.
  rewrite nth_error_fillna, nth_error_map, shift_nth_error_0; [reflexivity|].
  intros E. apply H. apply length_zero_iff_nil.
  rewrite <- (signal_length prices lookback), E. reflexivity.
Qed.

(** The position is the signal of the period before. *)
Lemma pos_nth_error_S prices lookback t :
  (S t < length prices)%nat ->
  nth_error (pos prices lookback) (S t) =
  option_map IZR (nth_error (signal prices lookback) t).
Proof.
  intros H. unfold pos.
  rewrite nth_error_fillna, nth_error_map, shift_nth_error_S
    by now rewrite signal_length.
  destruct (nth_error (signal prices lookback) t); reflexivity.
Qed.

Lemma strategy_ret_nth_error_0 prices lookback fee :
  prices <> [] -> nth_error (strategy_ret prices lookback fee) 0 = Some 0.
Proof.
  intros H. unfold strategy_ret.
  rewrite !zip_with_nth_error, pos_nth_error_0, ret_nth_error_0 by assumption.
  rewrite nth_error_map, nth_error_fillna. unfold abs, diff.
  rewrite nth_error_map, lagged_nth_error_0.
  - simpl. f_equal. lra.
  - intros E. apply H. apply length_zero_iff_nil.
    rewrite <- (pos_length prices lookback), E. reflexivity.
Qed.

Lemma equity_nth_error_0 sr x :
  nth_error sr 0 = Some x -> nth_error (equity sr) 0 = Some (1 + x).
Proof.
  destruct sr as [|y sr]; simpl; [discriminate|].
  intros [= ->]. reflexivity.
Qed.

Lemma valid_input_nonempty prices lookback fee :
  valid_input prices lookback fee -> prices <> [].
Proof.
  intros (_ & Hl & _ & Hn) ->. simpl in Hn. lia.
Qed.

Lemma momentum_backtest_accepts prices lookback fee :
  (0 < lookback)%Z -> (lookback + 2 <= Z.of_nat (length prices))%Z ->
  momentum_backtest prices lookback fee =
  inr {| r_cagr := cagr (strategy_ret prices lookback fee)
                        (equity (strategy_ret prices lookback fee));
         r_sharpe := sharpe (strategy_ret prices lookback fee);
         r_max_dd := mdd (equity (strategy_ret prices lookback fee));
         r_returns := strategy_ret prices lookback fee;
         r_equity := equity (strategy_ret prices lookback fee) |}.
Proof.
  intros Hl Hn. unfold momentum_backtest.
  destruct (Z.leb_spec lookback 0); [lia|].
  destruct (Z.ltb_spec (Z.of_nat (length prices)) (lookback + 2)); [lia|].
  reflexivity.
Qed.

End EngineSeries.

(** The length of every series of the pipeline is the number of prices. *)
Create Rewrite HintDb series_length.
#[global] Hint Rewrite
  @zip_with_length fillna_length @shift_length lagged_length
  rolling_sum_length scan_length cumulative_length
  ret_length signal_length pos_length strategy_ret_length equity_length
  : series_length.

(** Evaluation of the pipeline on a concrete series: the list operations
    are computed, and each comparison of two real constants is decided by
    linear arithmetic. *)
Ltac eval_series :=
  cbn -[Rplus Rmult Rminus Rdiv IZR Rlt_dec Rabs];
  repeat match goal with
         | |- context [Rlt_dec ?a ?b] =>
             destruct (Rlt_dec a b); try (exfalso; lra)
         end;
  cbn -[Rplus Rmult Rminus Rdiv IZR Rabs].

(** [|0|], [|1|] and [|-1|], the absolute position changes. *)
Ltac eval_abs :=
  repeat match goal with
         | |- context [Rabs (?a - ?b)] =>
             first [ replace (a - b) with 0 by lra; rewrite Rabs_R0
                   | replace (a - b) with 1 by lra; rewrite Rabs_R1
                   | replace (a - b) with (- (1)) by lra;
                     rewrite Rabs_Ropp, Rabs_R1 ]
         end.

(** ** Validation (C2, C3) *)

Section Validation.
Import Pandas Utils.

(** C3. For every price series and every lookback: the engine raises the
    invalid-parameter error exactly when [lookback <= 0]; for a positive
    lookback it raises the insufficient-data error exactly when
    [len(prices) < lookback + 2]; and on every input that passes both
    checks it raises neither and returns a results bundle. *)
Theorem momentum_backtest_error_conditions prices lookback fee :
  (momentum_backtest prices lookback fee = inl InvalidParameter
   <-> (lookback <= 0)%Z) /\
  ((0 < lookback)%Z ->
   ((exists need got,
       momentum_backtest prices lookback fee = inl (InsufficientData need got))
    <-> (Z.of_nat (length prices) < lookback + 2)%Z)) /\
  ((0 < lookback)%Z -> (lookback + 2 <= Z.of_nat (length prices))%Z ->
   exists r, momentum_backtest prices lookback fee = inr r).
Proof.
  unfold momentum_backtest.
  destruct (Z.leb_spec lookback 0) as [Hl|Hl].
  - split; [tauto|]. split; intros; lia.
  - destruct (Z.ltb_spec (Z.of_nat (length prices)) (lookback + 2)) as [Hn|Hn].
    + split; [|split].
      * split; [discriminate | lia].
      * intros _. split; [trivial | eauto].
      * intros; lia.
    + split; [|split].
      * split; [discriminate | lia].
      * intros _. split; [intros (need & got & E); discriminate | lia].
      * intros _ _. eauto.
Qed.

(** C2, as stated, fails: with the negative fee [-0.01] the engine raises
    nothing on the worked example and returns a results bundle. *)
Lemma negative_fee_accepted_by_engine :
  -0.01 < 0 /\
  exists r, momentum_backtest example_prices 3 (-0.01) = inr r.
Proof.
  split; [lra|].
  eexists. apply momentum_backtest_accepts; simpl; lia.
Qed.

(** C2, amended. A negative fee is rejected by the command-line entry point
    [main], which exits with status 1 before it loads the data or calls the
    engine; [momentum_backtest] itself does not look at the fee: with a
    negative fee it fails only when [lookback <= 0] or
    [len(prices) < lookback + 2], and returns a results bundle otherwise. *)
Theorem negative_fee_rejected_by_main prices lookback fee data :
  fee < 0 ->
  CliBacktest.main lookback fee data = CliBacktest.Exit 1 /\
  (forall e, momentum_backtest prices lookback fee = inl e ->
     (lookback <= 0)%Z \/ (Z.of_nat (length prices) < lookback + 2)%Z) /\
  ((0 < lookback)%Z -> (lookback + 2 <= Z.of_nat (length prices))%Z ->
   exists r, momentum_backtest prices lookback fee = inr r).
Proof.
  intros Hfee. split; [|split].
  - unfold CliBacktest.main.
    destruct (lookback <=? 0)%Z; [reflexivity|].
    destruct (Rlt_dec fee 0); [reflexivity | contradiction].
  - intros e. unfold momentum_backtest.
    destruct (Z.leb_spec lookback 0); [auto|].
    destruct (Z.ltb_spec (Z.of_nat (length prices)) (lookback + 2)); [auto|].
    discriminate.
  - intros Hl Hn. eexists. now apply momentum_backtest_accepts.
Qed.

Lemma negative_fee_rejected_by_main_example :
  -0.01 < 0 /\
  CliBacktest.main 3 (-0.01) (Some example_prices) = CliBacktest.Exit 1 /\
  (forall e, momentum_backtest example_prices 3 (-0.01) = inl e ->
     (3 <= 0)%Z \/ (Z.of_nat (length example_prices) < 3 + 2)%Z) /\
  ((0 < 3)%Z -> (3 + 2 <= Z.of_nat (length example_prices))%Z ->
   exists r, momentum_backtest example_prices 3 (-0.01) = inr r).
Proof.
  assert (H : -0.01 < 0) by lra.
  split; [exact H|].
  exact (negative_fee_rejected_by_main example_prices 3 (-0.01)
           (Some example_prices) H).
Defined.

Lemma momentum_backtest_error_conditions_example :
  (momentum_backtest example_prices 3 0 = inl InvalidParameter
   <-> (3 <= 0)%Z) /\
  ((0 < 3)%Z ->
   ((exists need got,
       momentum_backtest example_prices 3 0 = inl (InsufficientData need got))
    <-> (Z.of_nat (length example_prices) < 3 + 2)%Z)) /\
  ((0 < 3)%Z -> (3 + 2 <= Z.of_nat (length example_prices))%Z ->
   exists r, momentum_backtest example_prices 3 0 = inr r).
Proof. exact (momentum_backtest_error_conditions example_prices 3 0). Defined.

End Validation.

(** ** The warm-up of the signal (C1) *)

Section WarmUp.
Import Pandas Utils.

Lemma example_ret :
  ret example_prices =
  [0; 101 / 100 - 1; 102 / 101 - 1; 101 / 102 - 1; 99 / 101 - 1;
   100 / 99 - 1; 103 / 100 - 1].
Proof. reflexivity. Qed.

Lemma example_valid : valid_input example_prices 3 0.
Proof.
  unfold valid_input, example_prices. repeat split; simpl; try lia; try lra.
  repeat constructor; lra.
Qed.

(** C1, as stated, fails: on the worked example of the specification
    (lookback 3) the signal is already 1 at index 2, one of the first
    [lookback] periods. *)
Lemma signal_true_inside_first_lookback_periods :
  valid_input example_prices 3 0 /\
  (Z.of_nat 2 < 3)%Z /\
  nth_error (signal example_prices 3) 2 = Some 1%Z.
Proof.
  split; [exact example_valid|]. split; [lia|].
  rewrite signal_nth_error by (simpl; lia).
  rewrite example_ret. simpl.
  destruct (Rlt_dec _ _) as [H|H]; [reflexivity|].
  exfalso; apply H. lra.
Qed.

(** The window that ends at index [lookback - 1] is made of the first
    [lookback] returns, the conventional return [0] of period 0 included. *)
Lemma first_full_window w s :
  window w (w - 1) s = firstn w s.
Proof.
  unfold window. destruct w as [|w]; [reflexivity|].
  replace (S w - 1 + 1 - S w)%nat with 0%nat by lia. reflexivity.
Qed.

(** The cells of a window are the [w] cells that end at index [t]. *)
Lemma window_nth_error w t s j :
  (w <= t + 1)%nat -> (j < w)%nat ->
  nth_error (window w t s) j = nth_error s (t + 1 - w + j).
Proof.
  intros Hw Hj. unfold window. rewrite nth_error_firstn.
  destruct (Nat.ltb_spec j w); [|lia].
  now rewrite nth_error_skipn.
Qed.

(** C1, amended. For every valid input the signal is 0 at each of the first
    [lookback - 1] periods (indices 0 to [lookback - 2]); from index
    [lookback - 1] on it is 1 exactly when the trailing sum of [lookback]
    returns is positive; and the first full window, the one that ends at
    index [lookback - 1], is made of the first [lookback] returns, among
    them the return 0 given to period 0. *)
Theorem signal_warm_up prices lookback fee :
  valid_input prices lookback fee ->
  nth_error (ret prices) 0 = Some 0 /\
  (forall t, (t < length prices)%nat -> (Z.of_nat t < lookback - 1)%Z ->
     nth_error (signal prices lookback) t = Some 0%Z) /\
  (forall t, (t < length prices)%nat -> (lookback - 1 <= Z.of_nat t)%Z ->
     nth_error (signal prices lookback) t =
     Some (if Rlt_dec 0 (sum (window (Z.to_nat lookback) t (ret prices)))
           then 1%Z else 0%Z)) /\
  window (Z.to_nat lookback) (Z.to_nat lookback - 1) (ret prices) =
  firstn (Z.to_nat lookback) (ret prices).
Proof.
  intros Hv. pose proof (valid_input_nonempty _ _ _ Hv) as Hne.
  destruct Hv as (_ & Hl & _ & _).
  split; [now apply ret_nth_error_0|].
  split; [|split].
  - intros t Ht Hw. rewrite signal_nth_error by assumption.
    destruct (Nat.ltb_spec (t + 1) (Z.to_nat lookback)); [reflexivity | lia].
  - intros t Ht Hw. rewrite signal_nth_error by assumption.
    destruct (Nat.ltb_spec (t + 1) (Z.to_nat lookback)); [lia | reflexivity].
  - apply first_full_window.
Qed.

Lemma signal_warm_up_example :
  valid_input example_prices 3 0 /\
  nth_error (ret example_prices) 0 = Some 0 /\
  (forall t, (t < length example_prices)%nat -> (Z.of_nat t < 3 - 1)%Z ->
     nth_error (signal example_prices 3) t = Some 0%Z) /\
  (forall t, (t < length example_prices)%nat -> (3 - 1 <= Z.of_nat t)%Z ->
     nth_error (signal example_prices 3) t =
     Some (if Rlt_dec 0 (sum (window (Z.to_nat 3) t (ret example_prices)))
           then 1%Z else 0%Z)) /\
  window (Z.to_nat 3) (Z.to_nat 3 - 1) (ret example_prices) =
  firstn (Z.to_nat 3) (ret example_prices).
Proof.
  split; [exact example_valid|].
  exact (signal_warm_up example_prices 3 0 example_valid).
Defined.

End WarmUp.

(** ** Shape of the results (C7) *)

Section Shape.
Import Pandas Utils.

(** C7. For every valid input the engine returns a bundle whose strategy
    returns have the length of the price series and whose equity curve
    starts at exactly 1, the first strategy return being 0. *)
Theorem results_shape prices lookback fee :
  valid_input prices lookback fee ->
  exists r,
    momentum_backtest prices lookback fee = inr r /\
    length (r_returns r) = length prices /\
    nth_error (r_returns r) 0 = Some 0 /\
    nth_error (r_equity r) 0 = Some 1.
Proof.
  intros Hv. pose proof (valid_input_nonempty _ _ _ Hv) as Hne.
  destruct Hv as (_ & Hl & _ & Hn).
  eexists. split; [now apply momentum_backtest_accepts|].
  cbn [r_returns r_equity].
  split; [apply strategy_ret_length|].
  split; [now apply strategy_ret_nth_error_0|].
  rewrite (equity_nth_error_0 _ 0) by now apply strategy_ret_nth_error_0.
  f_equal. lra.
Qed.

Lemma results_shape_example :
  valid_input example_prices 3 0 /\
  exists r,
    momentum_backtest example_prices 3 0 = inr r /\
    length (r_returns r) = length example_prices /\
    nth_error (r_returns r) 0 = Some 0 /\
    nth_error (r_equity r) 0 = Some 1.
Proof.
  split; [exact example_valid|].
  exact (results_shape example_prices 3 0 example_valid).
Defined.

End Shape.

(** ** No look-ahead (C9) *)

Section NoLookAhead.
Import Pandas Utils.

Lemma shift_firstn {A : Type} (s : list A) k :
  firstn k (shift s) = shift (firstn k s).
Proof.
  unfold shift. rewrite firstn_firstn, length_firstn.
  destruct (Nat.min k (length s)) as [|m] eqn:E; [reflexivity|].
  simpl. f_equal. rewrite <- firstn_map, firstn_firstn.
  f_equal. lia.
Qed.

Lemma lagged_firstn f s k :
  firstn k (lagged f s) = lagged f (firstn k s).
Proof. unfold lagged. now rewrite zip_with_firstn, shift_firstn. Qed.

(** The first [k] returns are the returns of the first [k] prices. *)
Lemma ret_firstn prices k :
  firstn k (ret prices) = ret (firstn k prices).
Proof.
  unfold ret, pct_change, fillna. now rewrite firstn_map, lagged_firstn.
Qed.

(** A full window that ends at index [t] reads no cell after [t]. *)
Lemma window_firstn w t s :
  (w <= t + 1)%nat ->
  window w t s = window w t (firstn (t + 1) s).
Proof.
  intros H. unfold window.
  rewrite !firstn_skipn_comm, firstn_firstn.
  do 2 f_equal. lia.
Qed.

(** The signal of a period is a function of the prices up to that period. *)
Lemma signal_prefix prices prices' lookback t :
  firstn (S t) prices = firstn (S t) prices' ->
  (t < length prices)%nat -> (t < length prices')%nat ->
  nth_error (signal prices lookback) t = nth_error (signal prices' lookback) t.
Proof.
  intros E H H'. rewrite !signal_nth_error by assumption.
  destruct (Nat.ltb_spec (t + 1) (Z.to_nat lookback)) as [Hw|Hw];
    [reflexivity|].
  rewrite (window_firstn _ _ (ret prices)), (window_firstn _ _ (ret prices'))
    by assumption.
  rewrite !ret_firstn. replace (t + 1)%nat with (S t) by lia.
  now rewrite E.
Qed.

(** C9. The position of period [t] does not depend on the price of period
    [t]: two price series that agree on all entries before [t] (and both
    have a period [t]) give the same position at [t]. *)
Theorem position_ignores_current_price prices prices' lookback t :
  firstn t prices = firstn t prices' ->
  (t < length prices)%nat -> (t < length prices')%nat ->
  nth_error (pos prices lookback) t = nth_error (pos prices' lookback) t.
Proof.
  intros E H H'. destruct t as [|t].
  - rewrite !pos_nth_error_0; [reflexivity | |];
      intros ->; simpl in *; lia.
  - rewrite !pos_nth_error_S by assumption.
    f_equal. apply signal_prefix; [assumption | lia | lia].
Qed.

Lemma position_ignores_current_price_example :
  firstn 6 example_prices = firstn 6 perturbed_prices /\
  (6 < length example_prices)%nat /\ (6 < length perturbed_prices)%nat /\
  nth_error (pos example_prices 3) 6 = nth_error (pos perturbed_prices 3) 6.
Proof.
  assert (E : firstn 6 example_prices = firstn 6 perturbed_prices)
    by reflexivity.
  assert (H : (6 < length example_prices)%nat) by (simpl; lia).
  assert (H' : (6 < length perturbed_prices)%nat) by (simpl; lia).
  split; [exact E|]. split; [exact H|]. split; [exact H'|].
  exact (position_ignores_current_price example_prices perturbed_prices 3 6
           E H H').
Defined.

End NoLookAhead.

(** ** Maximum drawdown (C8) *)

Section Drawdown.
Import Pandas Utils.



Lemma fold_left_Rmin_init s a : fold_left Rmin s a <= a.
Proof.
  revert a; induction s as [|x s IH]; intros a; simpl; [lra|].
  eapply Rle_trans; [apply IH | apply Rmin_l].
Qed.

Lemma fold_left_Rmin_In s a x : In x s -> fold_left Rmin s a <= x.
Proof.
  revert a; induction s as [|y s IH]; intros a; simpl; [tauto|].
  intros [-> | H]; [|now apply IH].
  eapply Rle_trans; [apply fold_left_Rmin_init | apply Rmin_r].
Qed.

Lemma fold_left_Rmin_attained s a :
  fold_left Rmin s a = a \/ In (fold_left Rmin s a) s.
Proof.
  revert a; induction s as [|x s IH]; intros a; simpl; [now left|].
  destruct (IH (Rmin a x)) as [E | H]; [|now right; right].
  rewrite E. unfold Rmin. destruct (Rle_dec a x); [now left | now right; left].
Qed.

(** [min] returns the least cell of a non-empty series. *)
Lemma min_spec s :
  s <> [] ->
  exists m, min s = Some m /\ In m s /\ forall x, In x s -> m <= x.
Proof.
  destruct s as [|a s]; [congruence|]. intros _.
  exists (fold_left Rmin s a). split; [reflexivity|]. split.
  - destruct (fold_left_Rmin_attained s a) as [E | H];
      [rewrite E; now left | now right].
  - intros x [<- | H];
      [apply fold_left_Rmin_init | now apply fold_left_Rmin_In].
Qed.

Lemma scan_nth_error f a s k :
  (k < length s)%nat ->
  nth_error (scan f a s) k = Some (fold_left f (firstn (S k) s) a).
Proof.
  revert a k; induction s as [|x s IH]; intros a k H; simpl in H; [lia|].
  destruct k as [|k]; [reflexivity|].
  simpl. apply IH. lia.
Qed.

(** [cummax] is the running maximum of the specification. *)
Lemma cummax_nth_error s t :
  (t < length s)%nat ->
  nth_error (cummax s) t = Some (running_max s t).
Proof.
  destruct s as [|x s]; simpl; [lia|]. intros H.
  unfold running_max. rewrite firstn_cons.
  destruct t as [|t]; [reflexivity|].
  simpl nth_error. apply scan_nth_error. lia.
Qed.




(** The series whose minimum the engine takes is the drawdown series. *)
Lemma drawdown_series_nth_error eq t :
  (t < length eq)%nat ->
  nth_error (zip_with (fun e m => e / m - 1) eq (cummax eq)) t =
  Some (drawdown eq t).
Proof.
  intros H. rewrite zip_with_nth_error, cummax_nth_error by assumption.
  now rewrite (nth_error_nth' eq 0 H).
Qed.

Lemma mdd_spec eq :
  eq <> [] ->
  exists m, mdd eq = Some m /\
    (exists t, (t < length eq)%nat /\ m = drawdown eq t) /\
    (forall t, (t < length eq)%nat -> m <= drawdown eq t).
Proof.
  intros Hne. unfold mdd.
  set (dd := zip_with (fun e m => e / m - 1) eq (cummax eq)).
  assert (Hlen : length dd = length eq).
  { unfold dd, cummax. rewrite zip_with_length, cumulative_length. lia. }
  destruct (min_spec dd) as (m & Hm & Hin & Hle).
  { intros E. apply Hne, length_zero_iff_nil. now rewrite <- Hlen, E. }
  exists m. split; [assumption|]. split.
  - destruct (In_nth_error _ _ Hin) as (t & Ht).
    assert (Hlt : (t < length eq)%nat).
    { rewrite <- Hlen. apply nth_error_Some. congruence. }
    exists t. split; [assumption|].
    unfold dd in Ht. rewrite drawdown_series_nth_error in Ht by assumption.
    congruence.
  - intros t Ht. apply Hle. eapply nth_error_In.
    unfold dd. now apply drawdown_series_nth_error.
Qed.







Lemma equity_starts_at_one prices lookback fee :
  prices <> [] ->
  nth_error (equity (strategy_ret prices lookback fee)) 0 = Some 1.
Proof.
  intros Hne.
  rewrite (equity_nth_error_0 _ 0) by now apply strategy_ret_nth_error_0.
  f_equal. lra.
Qed.



End Drawdown.

(** ** Sharpe ratio and CAGR (C4, C5) *)

Section Metrics.
Import Pandas Utils.

Lemma zip_with_In {A B C : Type} (f : A -> B -> C) xs ys c :
  In c (zip_with f xs ys) -> exists x y, In x xs /\ In y ys /\ c = f x y.
Proof.
  revert ys; induction xs as [|x xs IH]; intros [|y ys]; simpl; try tauto.
  intros [<- | H].
  - exists x, y. auto.
  - destruct (IH _ H) as (x' & y' & Hx & Hy & E). exists x', y'. auto.
Qed.

Lemma lagged_In f s c :
  In c (lagged f s) ->
  c = None \/ exists cur prev, In cur s /\ In prev s /\ c = Some (f cur prev).
Proof.
  intros H. destruct (In_nth_error _ _ H) as ([|i] & Hi).
  - left. rewrite lagged_nth_error_0 in Hi; [congruence|].
    intros ->. discriminate.
  - right.
    assert (Hlt : (S i < length s)%nat).
    { rewrite <- (lagged_length f). apply nth_error_Some. congruence. }
    destruct (nth_error s i) as [prev|] eqn:Ep;
      [|apply nth_error_None in Ep; lia].
    destruct (nth_error s (S i)) as [cur|] eqn:Ec;
      [|apply nth_error_None in Ec; lia].
    rewrite (lagged_nth_error_S f s i cur prev Ep Ec) in Hi.
    exists cur, prev. repeat split; [eapply nth_error_In; eauto ..|congruence].
Qed.

Lemma window_In w i s x : In x (window w i s) -> In x s.
Proof.
  unfold window. intros H.
  destruct (In_nth_error _ _ H) as (j & Hj).
  rewrite nth_error_firstn in Hj. destruct (j <? w)%nat; [|discriminate].
  rewrite nth_error_skipn in Hj. eapply nth_error_In; eauto.
Qed.

Lemma sum_zeros s : Forall (fun x => x = 0) s -> sum s = 0.
Proof. induction 1 as [|x s -> _ IH]; simpl; [reflexivity | lra]. Qed.

(** *** A flat price series *)

Section Flat.
Variables (prices : series) (lookback : Z) (fee p : R).
Hypothesis Hp : 0 < p.
Hypothesis Hflat : Forall (fun x => x = p) prices.

Lemma flat_ret : Forall (fun x => x = 0) (ret prices).
Proof.
  apply Forall_forall. intros x Hx. unfold ret, pct_change, fillna in Hx.
  apply in_map_iff in Hx. destruct Hx as (c & <- & Hc).
  destruct (lagged_In _ _ _ Hc) as [-> | (cur & prev & Hcur & Hprev & ->)];
    [reflexivity|].
  rewrite Forall_forall in Hflat.
  rewrite (Hflat _ Hcur), (Hflat _ Hprev). field. lra.
Qed.

Lemma flat_signal : Forall (fun z => z = 0%Z) (signal prices lookback).
Proof.
  apply Forall_forall. intros z Hz.
  destruct (In_nth_error _ _ Hz) as (t & Ht).
  assert (Hlt : (t < length prices)%nat).
  { rewrite <- (signal_length prices lookback).
    apply nth_error_Some. congruence. }
  rewrite signal_nth_error in Ht by assumption.
  destruct (t + 1 <? Z.to_nat lookback)%nat; [congruence|].
  rewrite sum_zeros in Ht.
  - destruct (Rlt_dec 0 0); [lra | congruence].
  - apply Forall_forall. intros x Hx.
    pose proof flat_ret as Hr. rewrite Forall_forall in Hr.
    apply Hr. eapply window_In; eauto.
Qed.

Lemma flat_pos : Forall (fun x => x = 0) (pos prices lookback).
Proof.
  apply Forall_forall. intros x Hx.
  destruct (In_nth_error _ _ Hx) as (t & Ht).
  assert (Hlt : (t < length prices)%nat).
  { rewrite <- (pos_length prices lookback).
    apply nth_error_Some. congruence. }
  destruct t as [|t].
  - rewrite pos_nth_error_0 in Ht; [congruence|].
    intros ->. simpl in Hlt. lia.
  - rewrite pos_nth_error_S in Ht by assumption.
    destruct (nth_error (signal prices lookback) t) as [z|] eqn:Ez;
      [|discriminate].
    pose proof flat_signal as Hs. rewrite Forall_forall in Hs.
    rewrite (Hs z) in Ht by (eapply nth_error_In; eauto).
    simpl in Ht. congruence.
Qed.

(** On a flat price series every strategy return is 0. *)
Lemma flat_strategy_ret :
  Forall (fun x => x = 0) (strategy_ret prices lookback fee).
Proof.
  pose proof flat_pos as Hpos. rewrite Forall_forall in Hpos.
  pose proof flat_ret as Hret. rewrite Forall_forall in Hret.
  apply Forall_forall. intros x Hx. unfold strategy_ret in Hx.
  apply zip_with_In in Hx. destruct Hx as (a & b & Ha & Hb & ->).
  apply zip_with_In in Ha. destruct Ha as (u & v & Hu & Hv & ->).
  rewrite (Hpos _ Hu), (Hret _ Hv).
  apply in_map_iff in Hb. destruct Hb as (d & <- & Hd).
  unfold fillna in Hd. apply in_map_iff in Hd. destruct Hd as (c & <- & Hc).
  unfold abs in Hc. apply in_map_iff in Hc. destruct Hc as (c' & <- & Hc').
  destruct (lagged_In _ _ _ Hc') as [-> | (cur & prev & Hcur & Hprev & ->)];
    simpl; [lra|].
  rewrite (Hpos _ Hcur), (Hpos _ Hprev).
  replace (0 - 0) with 0 by lra. rewrite Rabs_R0. lra.
Qed.

End Flat.

(** *** The metrics of an all-zero return series *)

Lemma mean_zeros s :
  s <> [] -> Forall (fun x => x = 0) s -> mean s = Some 0.
Proof.
  intros Hne Hz. destruct s as [|x s]; [congruence|].
  unfold mean. rewrite (sum_zeros _ Hz). f_equal. unfold Rdiv. lra.
Qed.

Lemma std_zeros s :
  (2 <= length s)%nat -> Forall (fun x => x = 0) s -> std s = Some 0.
Proof.
  intros Hlen Hz. unfold std.
  rewrite mean_zeros; [|intros ->; simpl in Hlen; lia|assumption].
  destruct (Nat.leb_spec (length s) 1); [lia|].
  rewrite sum_zeros.
  - unfold Rdiv. rewrite Rmult_0_l. now rewrite sqrt_0.
  - apply Forall_forall. intros y Hy.
    apply in_map_iff in Hy. destruct Hy as (x & <- & Hx).
    rewrite Forall_forall in Hz. rewrite (Hz _ Hx). lra.
Qed.

Lemma sharpe_zeros s :
  (2 <= length s)%nat -> Forall (fun x => x = 0) s -> sharpe s = Some 0.
Proof.
  intros Hlen Hz. unfold sharpe. rewrite std_zeros by assumption.
  destruct (Req_dec_T 0 0); [reflexivity | congruence].
Qed.

Lemma scan_ones s :
  Forall (fun x => x = 1) s -> Forall (fun x => x = 1) (scan Rmult 1 s).
Proof.
  induction 1 as [|x s -> _ IH]; simpl; [constructor|].
  rewrite Rmult_1_l. constructor; [reflexivity | assumption].
Qed.

Lemma equity_zeros s :
  Forall (fun x => x = 0) s -> Forall (fun x => x = 1) (equity s).
Proof.
  intros Hz. unfold equity, cumprod.
  assert (H1 : Forall (fun x => x = 1) (map (Rplus 1) s)).
  { apply Forall_forall. intros y Hy.
    apply in_map_iff in Hy. destruct Hy as (x & <- & Hx).
    rewrite Forall_forall in Hz. rewrite (Hz _ Hx). lra. }
  destruct H1 as [|y l -> Hl]; simpl; [constructor|].
  constructor; [reflexivity | now apply scan_ones].
Qed.

Lemma last_Forall {A : Type} (P : A -> Prop) s d :
  s <> [] -> Forall P s -> P (last s d).
Proof.
  intros Hne H. rewrite Forall_forall in H. apply H.
  destruct (exists_last Hne) as (s' & a & ->).
  rewrite last_last. apply in_or_app. right. now left.
Qed.

Lemma Rpower_one y : Rpower 1 y = 1.
Proof. unfold Rpower. now rewrite ln_1, Rmult_0_r, exp_0. Qed.

Lemma cagr_zeros s :
  s <> [] -> Forall (fun x => x = 0) s -> cagr s (equity s) = Some 0.
Proof.
  intros Hne Hz. unfold cagr.
  assert (Hlen : length s <> 0%nat).
  { intros E. apply Hne. now apply length_zero_iff_nil. }
  destruct (Nat.eqb_spec (length s) 0); [contradiction|].
  assert (Hlast : iloc_last (equity s) = 1).
  { unfold iloc_last. apply (last_Forall (fun x => x = 1)).
    - intros E. apply Hlen. now rewrite <- (equity_length s), E.
    - now apply equity_zeros. }
  rewrite Hlast.
  destruct (Rle_dec 1 0); [lra|].
  unfold pow_ratio. destruct (Rlt_dec 0 1); [|lra].
  simpl. rewrite Rpower_one. f_equal. lra.
Qed.

(** The Sharpe ratio as the engine reports it, by cases on the standard
    deviation. *)
Lemma sharpe_cases sr s :
  std sr = Some s ->
  (s = 0 -> sharpe sr = Some 0) /\
  (s <> 0 ->
   exists m, mean sr = Some m /\ sharpe sr = Some (m / s * sqrt 252)).
Proof.
  intros Hs. unfold sharpe. rewrite Hs. split; intros H.
  - destruct (Req_dec_T s 0); [reflexivity | contradiction].
  - destruct (Req_dec_T s 0); [contradiction|].
    unfold std in Hs. destruct (mean sr) as [m|]; [|discriminate].
    exists m. split; reflexivity.
Qed.

Lemma std_defined s :
  (2 <= length s)%nat -> exists d, std s = Some d.
Proof.
  intros H. unfold std, mean.
  destruct s as [|x s]; [simpl in H; lia|].
  destruct (Nat.leb_spec (length (x :: s)) 1); [lia|]. eauto.
Qed.

(** The CAGR as the engine reports it, by cases on the guard. *)
Lemma cagr_cases sr eq :
  (length sr = 0%nat \/ iloc_last eq <= 0 -> cagr sr eq = Some 0) /\
  (length sr <> 0%nat -> 0 < iloc_last eq ->
   cagr sr eq = Some (Rpower (iloc_last eq) (252 / INR (length sr)) - 1)).
Proof.
  unfold cagr. destruct (Nat.eqb_spec (length sr) 0) as [E|E].
  - split; [reflexivity | contradiction].
  - destruct (Rle_dec (iloc_last eq) 0) as [H|H].
    + split; [reflexivity | intros; lra].
    + split; [intros [?|?]; [contradiction | lra]|].
      intros _ Hpos. unfold pow_ratio.
      destruct (Rlt_dec 0 (iloc_last eq)); [reflexivity | contradiction].
Qed.

(** C4. For every valid input the reported Sharpe ratio is 0 when the
    standard deviation of the strategy returns is exactly 0, and
    [mean / std * sqrt(252)] otherwise; on a flat price series (all prices
    equal) the engine reports Sharpe ratio 0 and CAGR 0. *)
Theorem sharpe_ratio_spec prices lookback fee :
  valid_input prices lookback fee ->
  exists r s,
    momentum_backtest prices lookback fee = inr r /\
    std (r_returns r) = Some s /\
    (s = 0 -> r_sharpe r = Some 0) /\
    (s <> 0 ->
     exists m, mean (r_returns r) = Some m /\
               r_sharpe r = Some (m / s * sqrt 252)) /\
    ((exists p, Forall (fun x => x = p) prices) ->
     r_sharpe r = Some 0 /\ r_cagr r = Some 0).
Proof.
  intros Hv. pose proof (valid_input_nonempty _ _ _ Hv) as Hne.
  destruct Hv as (Hpos & Hl & _ & Hn).
  set (sr := strategy_ret prices lookback fee).
  assert (Hlen : (2 <= length sr)%nat).
  { unfold sr. rewrite strategy_ret_length. lia. }
  destruct (std_defined sr Hlen) as (s & Hs).
  destruct (sharpe_cases sr s Hs) as (Hz & Hnz).
  eexists. exists s.
  split; [now apply momentum_backtest_accepts|].
  cbn [r_returns r_sharpe r_cagr]. fold sr.
  split; [assumption|]. split; [assumption|]. split; [assumption|].
  intros (p & Hflat).
  assert (Hp : 0 < p).
  { destruct prices as [|x xs]; [congruence|].
    inversion Hpos; inversion Hflat; subst. assumption. }
  pose proof (flat_strategy_ret prices lookback fee p Hp Hflat) as Hzeros.
  fold sr in Hzeros.
  split; [now apply sharpe_zeros|].
  apply cagr_zeros; [|assumption].
  intros E. rewrite E in Hlen. simpl in Hlen. lia.
Qed.

Lemma flat_valid : valid_input flat_prices 3 0.0001.
Proof.
  unfold valid_input, flat_prices. repeat split; simpl; try lia; try lra.
  repeat constructor; lra.
Qed.

Lemma sharpe_ratio_spec_example :
  valid_input flat_prices 3 0.0001 /\
  (exists p, Forall (fun x => x = p) flat_prices) /\
  exists r,
    momentum_backtest flat_prices 3 0.0001 = inr r /\
    r_sharpe r = Some 0 /\ r_cagr r = Some 0.
Proof.
  assert (Hflat : exists p, Forall (fun x => x = p) flat_prices).
  { exists 100. repeat constructor. }
  split; [exact flat_valid|]. split; [exact Hflat|].
  destruct (sharpe_ratio_spec flat_prices 3 0.0001 flat_valid)
    as (r & s & Hr & _ & _ & _ & Hf).
  exists r. split; [exact Hr | exact (Hf Hflat)].
Defined.

(** C5. For every valid input the reported CAGR is 0 when the strategy
    returns are empty or the final equity is at most 0, and
    [equity[-1] ** (252 / len(strategy returns)) - 1] otherwise (the power
    of a positive base). *)
Theorem cagr_spec prices lookback fee :
  valid_input prices lookback fee ->
  exists r,
    momentum_backtest prices lookback fee = inr r /\
    (length (r_returns r) = 0%nat \/ iloc_last (r_equity r) <= 0 ->
     r_cagr r = Some 0) /\
    (length (r_returns r) <> 0%nat -> 0 < iloc_last (r_equity r) ->
     r_cagr r =
     Some (Rpower (iloc_last (r_equity r))
                  (252 / INR (length (r_returns r))) - 1)).
Proof.
  intros (_ & Hl & _ & Hn).
  eexists. split; [now apply momentum_backtest_accepts|].
  cbn [r_returns r_equity r_cagr]. apply cagr_cases.
Qed.

Lemma cagr_spec_example :
  valid_input example_prices 3 0 /\
  exists r,
    momentum_backtest example_prices 3 0 = inr r /\
    (length (r_returns r) = 0%nat \/ iloc_last (r_equity r) <= 0 ->
     r_cagr r = Some 0) /\
    (length (r_returns r) <> 0%nat -> 0 < iloc_last (r_equity r) ->
     r_cagr r =
     Some (Rpower (iloc_last (r_equity r))
                  (252 / INR (length (r_returns r))) - 1)).
Proof.
  split; [exact example_valid|].
  exact (cagr_spec example_prices 3 0 example_valid).
Defined.

Lemma sharpe_defined sr :
  (2 <= length sr)%nat -> exists v, sharpe sr = Some v.
Proof.
  intros H. destruct (std_defined sr H) as (s & Hs).
  destruct (sharpe_cases sr s Hs) as (Hz & Hnz).
  destruct (Req_dec_T s 0) as [E|E]; [eauto|].
  destruct (Hnz E) as (m & _ & Hm). eauto.
Qed.

Lemma cagr_defined sr eq : exists c, cagr sr eq = Some c.
Proof.
  destruct (cagr_cases sr eq) as (Hz & Hnz).
  destruct (Nat.eq_dec (length sr) 0) as [E|E]; [eauto|].
  destruct (Rle_dec (iloc_last eq) 0) as [H|H]; [eauto|].
  eexists. apply Hnz; [assumption | lra].
Qed.

End Metrics.

(** ** The standalone script against the engine (C10) *)

Section Script.
Import Pandas.

(** The script runs the pipeline of the engine at window 3 and fee 0.0001. *)
Lemma script_strategy_ret prices :
  Backtest.strategy_ret prices = Utils.strategy_ret prices 3 Backtest.fee.
Proof. reflexivity. Qed.

Lemma script_equity prices :
  Backtest.equity prices =
  Utils.equity (Utils.strategy_ret prices 3 Backtest.fee).
Proof. reflexivity. Qed.

Lemma script_sharpe prices :
  Backtest.sharpe prices =
  Utils.sharpe (Utils.strategy_ret prices 3 Backtest.fee).
Proof. reflexivity. Qed.

Lemma script_mdd prices :
  Backtest.mdd prices =
  Utils.mdd (Utils.equity (Utils.strategy_ret prices 3 Backtest.fee)).
Proof. reflexivity. Qed.

(** With a positive final equity the guard of the engine on the final
    equity is not taken, and the two CAGR computations agree. *)
Lemma script_cagr prices :
  0 < iloc_last (Backtest.equity prices) ->
  Backtest.cagr prices =
  Utils.cagr (Utils.strategy_ret prices 3 Backtest.fee)
             (Utils.equity (Utils.strategy_ret prices 3 Backtest.fee)).
Proof.
  intros H. unfold Backtest.cagr, Utils.cagr.
  rewrite script_strategy_ret, script_equity in *.
  destruct (length _ =? 0)%nat; [reflexivity|].
  destruct (Rle_dec _ 0); [lra | reflexivity].
Qed.

Lemma short_prices_final_equity :
  iloc_last (Backtest.equity short_prices) =
  1 * 1 * 1 * (1 + (103 / 102 - 1 - 0.0001)).
Proof.
  unfold Backtest.equity, Backtest.strategy_ret, Backtest.pos, Backtest.signal,
    Backtest.ret, Backtest.fee, short_prices, iloc_last.
  eval_series. eval_abs. lra.
Qed.

(** C10, as stated, fails: on a series of four prices the script computes
    a positive final equity and its three metrics, while the engine at
    window 3 and fee 0.0001 raises the insufficient-data error. *)
Lemma script_accepts_short_series :
  0 < iloc_last (Backtest.equity short_prices) /\
  (exists c s d,
     Backtest.script short_prices =
     {| Backtest.p_cagr := Some c; Backtest.p_sharpe := Some s;
        Backtest.p_mdd := Some d |}) /\
  Utils.momentum_backtest short_prices 3 0.0001 =
  inl (Utils.InsufficientData 5 4).
Proof.
  assert (Hpos : 0 < iloc_last (Backtest.equity short_prices)).
  { rewrite short_prices_final_equity. lra. }
  split; [exact Hpos|]. split; [|reflexivity].
  unfold Backtest.script.
  rewrite (script_cagr _ Hpos), script_sharpe, script_mdd.
  destruct (cagr_defined (Utils.strategy_ret short_prices 3 Backtest.fee)
              (Utils.equity (Utils.strategy_ret short_prices 3 Backtest.fee)))
    as (c & ->).
  destruct (sharpe_defined (Utils.strategy_ret short_prices 3 Backtest.fee))
    as (v & ->).
  { rewrite strategy_ret_length. simpl. lia. }
  destruct (mdd_spec (Utils.equity (Utils.strategy_ret short_prices 3 Backtest.fee)))
    as (m & -> & _).
  { intros E. apply (f_equal (@length R)) in E.
    autorewrite with series_length in E. discriminate. }
  eauto.
Qed.

(** C10, amended. For every series of at least five prices on which the
    final equity is positive, the script reports the CAGR, the Sharpe ratio
    and the maximum drawdown that [momentum_backtest(prices, 3, 0.0001)]
    returns. *)
Theorem script_matches_engine prices :
  (5 <= length prices)%nat ->
  0 < iloc_last (Backtest.equity prices) ->
  exists r,
    Utils.momentum_backtest prices 3 0.0001 = inr r /\
    Backtest.p_cagr (Backtest.script prices) = Utils.r_cagr r /\
    Backtest.p_sharpe (Backtest.script prices) = Utils.r_sharpe r /\
    Backtest.p_mdd (Backtest.script prices) = Utils.r_max_dd r.
Proof.
  intros Hlen Hpos. eexists.
  split; [apply momentum_backtest_accepts; lia|].
  cbn [Utils.r_cagr Utils.r_sharpe Utils.r_max_dd
       Backtest.script Backtest.p_cagr Backtest.p_sharpe Backtest.p_mdd].
  split; [now apply script_cagr|].
  split; [apply script_sharpe | apply script_mdd].
Qed.

(** The final equity of the script on the worked example. *)
Lemma example_final_equity :
  iloc_last (Backtest.equity example_prices) =
  1 * 1 * 1 * (1 + (101 / 102 - 1 - 0.0001)) * (1 + (99 / 101 - 1))
  * (1 - 0.0001) * 1.
Proof.
  unfold Backtest.equity, Backtest.strategy_ret, Backtest.pos, Backtest.signal,
    Backtest.ret, Backtest.fee, example_prices, iloc_last.
  eval_series. eval_abs. lra.
Qed.

Lemma script_matches_engine_example :
  (5 <= length example_prices)%nat /\
  0 < iloc_last (Backtest.equity example_prices) /\
  exists r,
    Utils.momentum_backtest example_prices 3 0.0001 = inr r /\
    Backtest.p_cagr (Backtest.script example_prices) = Utils.r_cagr r /\
    Backtest.p_sharpe (Backtest.script example_prices) = Utils.r_sharpe r /\
    Backtest.p_mdd (Backtest.script example_prices) = Utils.r_max_dd r.
Proof.
  assert (Hlen : (5 <= length example_prices)%nat) by (simpl; lia).
  assert (Hpos : 0 < iloc_last (Backtest.equity example_prices)).
  { rewrite example_final_equity. lra. }
  split; [exact Hlen|]. split; [exact Hpos|].
  exact (script_matches_engine example_prices Hlen Hpos).
Defined.

(** Without the positivity of the final equity the two CAGR computations
    part: on [crash_prices] the final equity is negative, the engine
    reports 0 and the script the NaN of a fractional power of a negative
    base. *)
Lemma crash_prices_final_equity :
  iloc_last (Backtest.equity crash_prices) =
  1 * 1 * 1 * (1 + (0.001 / 102 - 1 - 0.0001)) * (1 - 0.0001).
Proof.
  unfold Backtest.equity, Backtest.strategy_ret, Backtest.pos, Backtest.signal,
    Backtest.ret, Backtest.fee, crash_prices, iloc_last.
  eval_series. eval_abs. lra.
Qed.

Lemma script_cagr_without_guard :
  iloc_last (Backtest.equity crash_prices) < 0 /\
  Backtest.cagr crash_prices = None /\
  exists r, Utils.momentum_backtest crash_prices 3 0.0001 = inr r /\
            Utils.r_cagr r = Some 0.
Proof.
  assert (Hneg : iloc_last (Backtest.equity crash_prices) < 0).
  { rewrite crash_prices_final_equity. lra. }
  split; [exact Hneg|]. split.
  - unfold Backtest.cagr, pow_ratio.
    replace (length (Backtest.strategy_ret crash_prices)) with 5%nat
      by reflexivity.
    destruct (Rlt_dec 0 _); [lra|].
    destruct (Req_dec_T _ 0); [lra|]. reflexivity.
  - eexists. split; [apply momentum_backtest_accepts; simpl; lia|].
    cbn [Utils.r_cagr].
    apply (proj1 (cagr_cases _ _)). right.
    change (iloc_last (Backtest.equity crash_prices) <= 0). lra.
Qed.

End Script.

(** ** Totality on valid input (C6) *)

Section Totality.
Import Pandas Utils.

Lemma float64_max_lt : float64_max < 2 ^ 1024.
Proof.
  unfold float64_max. change (2 ^ 1024) with (2 * 2 ^ 1023).
  assert (H52 : 0 < / 2 ^ 52) by (apply Rinv_0_lt_compat, pow_lt; lra).
  assert (H : 0 < 2 ^ 1023) by (apply pow_lt; lra).
  nra.
Qed.

Lemma pow_5000_84_large : 2 ^ 1024 < 5000 ^ 84 - 1.
Proof.
  rewrite !pow_IZR, <- minus_IZR. apply IZR_lt. vm_compute. reflexivity.
Qed.

Lemma overflow_valid : valid_input overflow_prices 1 0.
Proof.
  unfold valid_input, overflow_prices. repeat split; simpl; try lia; try lra.
  repeat constructor; lra.
Qed.

Lemma overflow_final_equity :
  iloc_last (equity (strategy_ret overflow_prices 1 0)) = 5000.
Proof.
  unfold equity, strategy_ret, pos, signal, ret, overflow_prices, iloc_last.
  change (Z.to_nat 1) with 1%nat. eval_series. eval_abs. lra.
Qed.

(** C6, as stated, fails: on the valid input [[1; 2; 10000]] with lookback
    1 and fee 0 the strategy is long over the last period, the final
    equity is 5000 and the CAGR is [5000 ** 84 - 1], a number beyond the
    largest finite float64; the value the code returns for it is [inf],
    not a finite one. *)
Lemma cagr_beyond_float64 :
  valid_input overflow_prices 1 0 /\
  exists r,
    momentum_backtest overflow_prices 1 0 = inr r /\
    iloc_last (r_equity r) = 5000 /\
    r_cagr r = Some (5000 ^ 84 - 1) /\
    float64_max < 5000 ^ 84 - 1.
Proof.
  split; [exact overflow_valid|].
  eexists. split; [apply momentum_backtest_accepts; simpl; lia|].
  cbn [r_equity r_cagr].
  split; [exact overflow_final_equity|]. split.
  - rewrite (proj2 (cagr_cases _ _)).
    + rewrite overflow_final_equity, strategy_ret_length.
      do 2 f_equal. rewrite <- (Rpower_pow 84 5000) by lra.
      f_equal. rewrite INR_IZR_INZ. simpl. lra.
    + rewrite strategy_ret_length. discriminate.
    + rewrite overflow_final_equity. lra.
  - eapply Rlt_trans; [exact float64_max_lt | exact pow_5000_84_large].
Qed.

(** C6, amended. On every valid input the engine raises nothing and
    returns a results bundle with one strategy return and one equity value
    per price, whatever the statistical properties of the data; and
    whenever the engine fails, it fails with the invalid-parameter error
    (then [lookback <= 0]) or with the insufficient-data error (then
    [len(prices) < lookback + 2]).  Nothing is said of the size of the
    returned values. *)
Theorem engine_never_raises_on_valid_input prices lookback fee :
  (valid_input prices lookback fee ->
   exists r,
     momentum_backtest prices lookback fee = inr r /\
     length (r_returns r) = length prices /\
     length (r_equity r) = length prices) /\
  (forall e, momentum_backtest prices lookback fee = inl e ->
     (e = InvalidParameter /\ (lookback <= 0)%Z) \/
     (e = InsufficientData (lookback + 2) (Z.of_nat (length prices)) /\
      (0 < lookback)%Z /\ (Z.of_nat (length prices) < lookback + 2)%Z)).
Proof.
  split.
  - intros (_ & Hl & _ & Hn).
    eexists. split; [now apply momentum_backtest_accepts|].
    cbn [r_returns r_equity]. now autorewrite with series_length.
  - intros e. unfold momentum_backtest.
    destruct (Z.leb_spec lookback 0) as [Hl|Hl].
    + intros [= <-]. now left.
    + destruct (Z.ltb_spec (Z.of_nat (length prices)) (lookback + 2)).
      * intros [= <-]. right. auto.
      * discriminate.
Qed.

Lemma engine_never_raises_on_valid_input_example :
  valid_input overflow_prices 1 0 /\
  exists r,
    momentum_backtest overflow_prices 1 0 = inr r /\
    length (r_returns r) = length overflow_prices /\
    length (r_equity r) = length overflow_prices.
Proof.
  split; [exact overflow_valid|].
  exact (proj1 (engine_never_raises_on_valid_input overflow_prices 1 0)
           overflow_valid).
Defined.

End Totality.

(** * Further properties of the code *)

(** ** Series with finite returns *)

Section FiniteReturns.

Lemma float64_max_ge_2 : 2 <= float64_max.
Proof.
  unfold float64_max.
  assert (H52 : / 2 ^ 52 <= 1).
  { rewrite <- Rinv_1. apply Rinv_le_contravar; [lra|].
    apply pow_R1_Rle. lra. }
  assert (H : 2 <= 2 ^ 1023).
  { change (2 ^ 1023) with (2 * 2 ^ 1022).
    assert (1 <= 2 ^ 1022) by (apply pow_R1_Rle; lra). lra. }
  nra.
Qed.

(** Positive prices none of which is more than twice the one before. *)
Lemma finite_returns_of_doubling prices :
  Forall (fun p => 0 < p) prices ->
  (forall i, (S i < length prices)%nat ->
     nth (S i) prices 0 <= 2 * nth i prices 0) ->
  finite_returns prices.
Proof.
  intros Hpos H. split; [assumption|]. intros i Hi.
  assert (Hp : 0 < nth i prices 0).
  { rewrite Forall_forall in Hpos. apply Hpos, nth_In. lia. }
  pose proof float64_max_ge_2. specialize (H i Hi). nra.
Qed.

Lemma example_finite_returns : finite_returns example_prices.
Proof.
  apply finite_returns_of_doubling; [exact (proj1 example_valid)|].
  intros i Hi. simpl in Hi.
  do 6 (destruct i as [|i]; [simpl; lra|]). lia.
Qed.

Lemma flat_finite_returns : finite_returns flat_prices.
Proof.
  apply finite_returns_of_doubling; [exact (proj1 flat_valid)|].
  intros i Hi. simpl in Hi.
  do 4 (destruct i as [|i]; [simpl; lra|]). lia.
Qed.

End FiniteReturns.

(** ** The cells of the engine's series *)

Section Cells.
Import Pandas Utils.

Lemma shift_In {A : Type} (s : list A) c :
  In c (shift s) -> c = None \/ exists a, In a s /\ c = Some a.
Proof.
  intros H. destruct (In_nth_error _ _ H) as ([|i] & Hi).
  - left. destruct s as [|x s]; [discriminate|]. simpl in Hi. congruence.
  - right.
    assert (Hlt : (S i < length s)%nat).
    { rewrite <- (shift_length s). apply nth_error_Some. congruence. }
    rewrite shift_nth_error_S in Hi by assumption.
    destruct (nth_error s i) as [a|] eqn:Ea; [|discriminate].
    exists a. split; [eapply nth_error_In; eauto | simpl in Hi; congruence].
Qed.

Lemma signal_In prices lookback z :
  In z (signal prices lookback) -> z = 0%Z \/ z = 1%Z.
Proof.
  unfold signal. intros H. apply in_map_iff in H.
  destruct H as (c & <- & _). destruct (gt c 0); simpl; auto.
Qed.

Lemma pos_In prices lookback x :
  In x (pos prices lookback) -> x = 0 \/ x = 1.
Proof.
  unfold pos, fillna. intros H. apply in_map_iff in H.
  destruct H as (c & <- & Hc). apply in_map_iff in Hc.
  destruct Hc as (c' & <- & Hc').
  destruct (shift_In _ _ Hc') as [-> | (z & Hz & ->)]; [now left|].
  simpl. destruct (signal_In _ _ _ Hz) as [-> | ->]; auto.
Qed.

Lemma pos_nth prices lookback t :
  nth t (pos prices lookback) 0 = 0 \/ nth t (pos prices lookback) 0 = 1.
Proof.
  destruct (Nat.lt_ge_cases t (length (pos prices lookback))) as [H|H].
  - apply (pos_In prices lookback). now apply nth_In.
  - left. now apply nth_overflow.
Qed.

(** The strategy return of a period after the first. *)
Lemma strategy_ret_nth_error_S prices lookback fee t :
  (S t < length prices)%nat ->
  nth_error (strategy_ret prices lookback fee) (S t) =
  Some (nth (S t) (pos prices lookback) 0 * nth (S t) (ret prices) 0
        - fee * Rabs (nth (S t) (pos prices lookback) 0
                      - nth t (pos prices lookback) 0)).
Proof.
  intros H.
  assert (Hp : (S t < length (pos prices lookback))%nat)
    by now rewrite pos_length.
  assert (Hp' : (t < length (pos prices lookback))%nat) by lia.
  assert (Hr : (S t < length (ret prices))%nat) by now rewrite ret_length.
  unfold strategy_ret.
  rewrite !zip_with_nth_error.
  rewrite (nth_error_nth' _ 0 Hp), (nth_error_nth' _ 0 Hr).
  rewrite nth_error_map, nth_error_fillna. unfold abs, diff.
  rewrite nth_error_map.
  rewrite (lagged_nth_error_S _ _ t _ _ (nth_error_nth' _ 0 Hp')
             (nth_error_nth' _ 0 Hp)).
  reflexivity.
Qed.

Lemma scan_nth_error_S f a s k :
  (S k < length s)%nat ->
  nth_error (scan f a s) (S k) =
  Some (f (nth k (scan f a s) 0) (nth (S k) s 0)).
Proof.
  revert a k; induction s as [|x s IH]; intros a k H; simpl in H; [lia|].
  destruct k as [|k].
  - destruct s as [|y s]; [simpl in H; lia | reflexivity].
  - simpl. apply IH. lia.
Qed.

Lemma cumulative_nth_error_S f s k :
  (S k < length s)%nat ->
  nth_error (cumulative f s) (S k) =
  Some (f (nth k (cumulative f s) 0) (nth (S k) s 0)).
Proof.
  destruct s as [|x s]; simpl; [lia|]. intros H.
  destruct k as [|k].
  - destruct s as [|y s]; [simpl in H; lia | reflexivity].
  - simpl. apply scan_nth_error_S. lia.
Qed.

(** The equity of a period is the equity of the period before, times one
    plus the strategy return of the period. *)
Lemma equity_nth_error_S sr t :
  (S t < length sr)%nat ->
  nth_error (equity sr) (S t) =
  Some (nth t (equity sr) 0 * (1 + nth (S t) sr 0)).
Proof.
  intros H. unfold equity, cumprod.
  rewrite cumulative_nth_error_S by now rewrite length_map.
  do 2 f_equal.
  rewrite (nth_indep _ 0 (1 + 0)) by now rewrite length_map.
  apply map_nth.
Qed.

Lemma equity_nth_S sr t :
  (S t < length sr)%nat ->
  nth (S t) (equity sr) 0 = nth t (equity sr) 0 * (1 + nth (S t) sr 0).
Proof. intros H. apply nth_error_nth. now apply equity_nth_error_S. Qed.

Lemma equity_nth_0 prices lookback fee :
  prices <> [] -> nth 0 (equity (strategy_ret prices lookback fee)) 0 = 1.
Proof. intros H. apply nth_error_nth. now apply equity_starts_at_one. Qed.

Lemma strategy_ret_nth_S prices lookback fee t :
  (S t < length prices)%nat ->
  nth (S t) (strategy_ret prices lookback fee) 0 =
  nth (S t) (pos prices lookback) 0 * nth (S t) (ret prices) 0
  - fee * Rabs (nth (S t) (pos prices lookback) 0
                - nth t (pos prices lookback) 0).
Proof. intros H. apply nth_error_nth. now apply strategy_ret_nth_error_S. Qed.

Lemma ret_nth_S prices t :
  (S t < length prices)%nat ->
  nth (S t) (ret prices) 0 = nth (S t) prices 0 / nth t prices 0 - 1.
Proof.
  intros H. apply nth_error_nth.
  apply ret_nth_error_S; apply nth_error_nth'; lia.
Qed.

End Cells.

(** ** Positions and strategy returns *)

Section Positions.
Import Pandas Utils.

(** The position lags the signal by one period and is binary: the first
    position is 0, the position of period [t + 1] is the signal of period
    [t], and every signal and every position is 0 or 1. *)
Theorem position_is_lagged_binary_signal prices lookback :
  prices <> [] ->
  nth_error (pos prices lookback) 0 = Some 0 /\
  (forall t, (S t < length prices)%nat ->
     nth_error (pos prices lookback) (S t) =
     option_map IZR (nth_error (signal prices lookback) t)) /\
  Forall (fun z => z = 0%Z \/ z = 1%Z) (signal prices lookback) /\
  Forall (fun x => x = 0 \/ x = 1) (pos prices lookback).
Proof.
  intros Hne. split; [now apply pos_nth_error_0|].
  split; [intros t Ht; now apply pos_nth_error_S|].
  split; apply Forall_forall; intros x Hx;
    [eapply signal_In | eapply pos_In]; eauto.
Qed.

Lemma position_is_lagged_binary_signal_example :
  example_prices <> [] /\
  nth_error (pos example_prices 3) 0 = Some 0 /\
  (forall t, (S t < length example_prices)%nat ->
     nth_error (pos example_prices 3) (S t) =
     option_map IZR (nth_error (signal example_prices 3) t)) /\
  Forall (fun z => z = 0%Z \/ z = 1%Z) (signal example_prices 3) /\
  Forall (fun x => x = 0 \/ x = 1) (pos example_prices 3).
Proof.
  assert (H : example_prices <> []) by discriminate.
  split; [exact H|].
  exact (position_is_lagged_binary_signal example_prices 3 H).
Defined.

Lemma pos_warm_up prices lookback t :
  (t < length prices)%nat -> (Z.of_nat t < lookback)%Z ->
  nth t (pos prices lookback) 0 = 0.
Proof.
  intros Ht Hw. apply nth_error_nth. destruct t as [|t].
  - apply pos_nth_error_0. intros ->. simpl in Ht. lia.
  - rewrite pos_nth_error_S, signal_nth_error by lia.
    destruct (Nat.ltb_spec (t + 1) (Z.to_nat lookback)); [reflexivity | lia].
Qed.

Lemma strategy_ret_warm_up prices lookback fee t :
  (t < length prices)%nat -> (Z.of_nat t < lookback)%Z ->
  nth t (strategy_ret prices lookback fee) 0 = 0.
Proof.
  intros Ht Hw. destruct t as [|t].
  - apply nth_error_nth. apply strategy_ret_nth_error_0.
    intros ->. simpl in Ht. lia.
  - rewrite strategy_ret_nth_S by assumption.
    rewrite !pos_warm_up by lia.
    replace (0 - 0) with 0 by lra. rewrite Rabs_R0. lra.
Qed.

Lemma strategy_ret_warm_up_0 prices lookback fee :
  prices <> [] -> nth 0 (strategy_ret prices lookback fee) 0 = 0.
Proof.
  intros H. apply nth_error_nth. now apply strategy_ret_nth_error_0.
Qed.

Lemma warm_up_cells prices lookback fee t :
  (t < length prices)%nat -> (Z.of_nat t < lookback)%Z ->
  nth_error (pos prices lookback) t = Some 0 /\
  nth_error (strategy_ret prices lookback fee) t = Some 0 /\
  nth_error (equity (strategy_ret prices lookback fee)) t = Some 1.
Proof.
  intros Ht Hw.
  assert (Hne : prices <> []) by (intros ->; simpl in Ht; lia).
  split; [|split].
  - rewrite (nth_error_nth' _ 0) by now rewrite pos_length.
    f_equal. now apply pos_warm_up.
  - rewrite (nth_error_nth' _ 0) by now rewrite strategy_ret_length.
    f_equal. now apply strategy_ret_warm_up.
  - rewrite (nth_error_nth' _ 0)
      by now rewrite equity_length, strategy_ret_length.
    f_equal. induction t as [|t IH]; [now apply equity_nth_0|].
    rewrite equity_nth_S by now rewrite strategy_ret_length.
    rewrite IH by lia. rewrite strategy_ret_warm_up by lia. lra.
Qed.

(** The strategy is out of the market during the first [lookback]
    periods: on prices with finite returns, at each of these periods the
    position is 0, the strategy return is 0 and the equity is 1. *)
Theorem flat_during_first_lookback_periods prices lookback fee t :
  finite_returns prices ->
  (t < length prices)%nat -> (Z.of_nat t < lookback)%Z ->
  nth_error (pos prices lookback) t = Some 0 /\
  nth_error (strategy_ret prices lookback fee) t = Some 0 /\
  nth_error (equity (strategy_ret prices lookback fee)) t = Some 1.
Proof. intros _. apply warm_up_cells. Qed.

Lemma flat_during_first_lookback_periods_example :
  finite_returns example_prices /\
  (2 < length example_prices)%nat /\ (Z.of_nat 2 < 3)%Z /\
  nth_error (pos example_prices 3) 2 = Some 0 /\
  nth_error (strategy_ret example_prices 3 0.0001) 2 = Some 0 /\
  nth_error (equity (strategy_ret example_prices 3 0.0001)) 2 = Some 1.
Proof.
  assert (H : (2 < length example_prices)%nat) by (simpl; lia).
  assert (H' : (Z.of_nat 2 < 3)%Z) by lia.
  split; [exact example_finite_returns|]. split; [exact H|].
  split; [exact H'|].
  exact (flat_during_first_lookback_periods example_prices 3 0.0001 2
           example_finite_returns H H').
Defined.

(** The strategy return of a period after the first, by the position
    before and the position now, on prices with finite returns: 0 while
    flat, the market return while long, the market return less the fee on
    entry, minus the fee on exit; and one of the four cases holds. *)
Theorem strategy_return_by_transition prices lookback fee t :
  finite_returns prices ->
  (S t < length prices)%nat ->
  let before := nth t (pos prices lookback) 0 in
  let now := nth (S t) (pos prices lookback) 0 in
  let market := nth (S t) (ret prices) 0 in
  let sr := nth (S t) (strategy_ret prices lookback fee) 0 in
  (before = 0 -> now = 0 -> sr = 0) /\
  (before = 1 -> now = 1 -> sr = market) /\
  (before = 0 -> now = 1 -> sr = market - fee) /\
  (before = 1 -> now = 0 -> sr = - fee) /\
  ((before = 0 \/ before = 1) /\ (now = 0 \/ now = 1)).
Proof.
  intros _ Ht. cbv zeta. rewrite strategy_ret_nth_S by assumption.
  repeat split.
  - intros -> ->. replace (0 - 0) with 0 by lra. rewrite Rabs_R0. lra.
  - intros -> ->. replace (1 - 1) with 0 by lra. rewrite Rabs_R0. lra.
  - intros -> ->. replace (1 - 0) with 1 by lra. rewrite Rabs_R1. lra.
  - intros -> ->. replace (0 - 1) with (- (1)) by lra.
    rewrite Rabs_Ropp, Rabs_R1. lra.
  - apply pos_nth.
  - apply pos_nth.
Qed.

Lemma strategy_return_by_transition_example :
  finite_returns example_prices /\
  (S 2 < length example_prices)%nat /\
  let before := nth 2 (pos example_prices 3) 0 in
  let now := nth (S 2) (pos example_prices 3) 0 in
  let market := nth (S 2) (ret example_prices) 0 in
  let sr := nth (S 2) (strategy_ret example_prices 3 0.0001) 0 in
  (before = 0 -> now = 0 -> sr = 0) /\
  (before = 1 -> now = 1 -> sr = market) /\
  (before = 0 -> now = 1 -> sr = market - 0.0001) /\
  (before = 1 -> now = 0 -> sr = - (0.0001)) /\
  ((before = 0 \/ before = 1) /\ (now = 0 \/ now = 1)).
Proof.
  assert (H : (S 2 < length example_prices)%nat) by (simpl; lia).
  split; [exact example_finite_returns|]. split; [exact H|].
  exact (strategy_return_by_transition example_prices 3 0.0001 2
           example_finite_returns H).
Defined.

End Positions.

(** ** A return beyond float64 *)

Section BeyondFloat64.
Import Pandas Utils.

(** Positive finite prices can have a period return beyond the largest
    float64: from [2^-600] to [2^600] the return is [2^1200 - 1], which
    the code computes as [inf], and times the position 0 of that period as
    NaN. *)
Lemma return_beyond_float64 :
  valid_input [/ 2 ^ 600; 2 ^ 600; 2 ^ 600; 2 ^ 600] 2 0 /\
  nth 1 (pos [/ 2 ^ 600; 2 ^ 600; 2 ^ 600; 2 ^ 600] 2) 0 = 0 /\
  float64_max < nth 1 (ret [/ 2 ^ 600; 2 ^ 600; 2 ^ 600; 2 ^ 600]) 0.
Proof.
  assert (H : 0 < 2 ^ 600) by (apply pow_lt; lra).
  assert (H' : 0 < / 2 ^ 600) by now apply Rinv_0_lt_compat.
  split; [|split].
  - unfold valid_input. cbn [length].
    split; [repeat constructor; assumption|].
    split; [lia|]. split; [lra | lia].
  - apply pos_warm_up; cbn [length]; lia.
  - rewrite ret_nth_S by (cbn [length]; lia).
    cbn [nth]. unfold Rdiv. rewrite Rinv_inv, <- pow_add.
    eapply Rlt_trans; [exact float64_max_lt|].
    rewrite !pow_IZR, <- minus_IZR. apply IZR_lt. vm_compute. reflexivity.
Qed.

End BeyondFloat64.

(** ** The equity curve *)

Section EquityCurve.
Import Pandas Utils.


Lemma equity_flat_range prices lookback fee a b :
  (a <= b)%nat -> (b < length prices)%nat ->
  (forall t, (a <= t <= b)%nat -> nth t (pos prices lookback) 0 = 0) ->
  nth b (equity (strategy_ret prices lookback fee)) 0 =
  nth a (equity (strategy_ret prices lookback fee)) 0.
Proof.
  intros Hab. induction Hab as [|b Hab IH]; intros Hb Hflat; [reflexivity|].
  rewrite equity_nth_S by now rewrite strategy_ret_length.
  rewrite IH by (try lia; intros; apply Hflat; lia).
  rewrite strategy_ret_nth_S by assumption.
  rewrite (Hflat (S b)), (Hflat b) by lia.
  replace (0 - 0) with 0 by lra. rewrite Rabs_R0. lra.
Qed.

(** While the strategy stays out of the market the equity does not move:
    on prices with finite returns, if the position is 0 at every period
    from [a] to [b], the equity of period [b] is the equity of period
    [a]. *)
Theorem equity_constant_while_flat prices lookback fee a b :
  finite_returns prices ->
  (a <= b)%nat -> (b < length prices)%nat ->
  (forall t, (a <= t <= b)%nat -> nth t (pos prices lookback) 0 = 0) ->
  nth b (equity (strategy_ret prices lookback fee)) 0 =
  nth a (equity (strategy_ret prices lookback fee)) 0.
Proof. intros _. apply equity_flat_range. Qed.




Lemma equity_constant_while_flat_example :
  finite_returns example_prices /\
  (0 <= 2)%nat /\ (2 < length example_prices)%nat /\
  (forall t, (0 <= t <= 2)%nat -> nth t (pos example_prices 3) 0 = 0) /\
  nth 2 (equity (strategy_ret example_prices 3 0.0001)) 0 =
  nth 0 (equity (strategy_ret example_prices 3 0.0001)) 0.
Proof.
  assert (H1 : (0 <= 2)%nat) by lia.
  assert (H2 : (2 < length example_prices)%nat) by (simpl; lia).
  assert (H3 : forall t, (0 <= t <= 2)%nat ->
                 nth t (pos example_prices 3) 0 = 0).
  { intros t Ht. apply pos_warm_up; simpl; lia. }
  split; [exact example_finite_returns|].
  split; [exact H1|]. split; [exact H2|]. split; [exact H3|].
  exact (equity_constant_while_flat example_prices 3 0.0001 0 2
           example_finite_returns H1 H2 H3).
Defined.




End EquityCurve.

(** ** A zero standard deviation *)

Section ZeroDeviation.
Import Pandas Utils.

Lemma sum_nonneg s : Forall (fun x => 0 <= x) s -> 0 <= sum s.
Proof. induction 1 as [|x s Hx _ IH]; simpl; lra. Qed.

Lemma sum_nonneg_zero s :
  Forall (fun x => 0 <= x) s -> sum s = 0 -> Forall (fun x => x = 0) s.
Proof.
  induction 1 as [|x s Hx Hs IH]; simpl; intros E; [constructor|].
  pose proof (sum_nonneg s Hs) as H0.
  constructor; [lra | apply IH; lra].
Qed.

(** A series of at least two cells has standard deviation 0 only when all
    its cells are equal. *)
Lemma std_zero_constant s :
  std s = Some 0 -> exists m, mean s = Some m /\ Forall (fun x => x = m) s.
Proof.
  unfold std. destruct (mean s) as [m|]; [|discriminate].
  destruct (length s <=? 1)%nat eqn:El; [discriminate|].
  apply Nat.leb_gt in El. intros [= H].
  exists m. split; [reflexivity|].
  set (sq := map (fun x => (x - m) * (x - m)) s) in *.
  assert (Hsq : Forall (fun x => 0 <= x) sq).
  { apply Forall_forall. intros y Hy. apply in_map_iff in Hy.
    destruct Hy as (x & <- & _). exact (Rle_0_sqr (x - m)). }
  assert (Hn : 0 < INR (length s - 1)) by (apply lt_0_INR; lia).
  assert (H0 : sum sq / INR (length s - 1) = 0).
  { apply sqrt_eq_0; [|assumption].
    apply Rmult_le_pos; [now apply sum_nonneg|].
    left. now apply Rinv_0_lt_compat. }
  assert (Hs : sum sq = 0).
  { apply (Rmult_eq_compat_r (INR (length s - 1))) in H0.
    unfold Rdiv in H0. rewrite Rmult_assoc, Rinv_l in H0; lra. }
  pose proof (sum_nonneg_zero sq Hsq Hs) as Hz.
  apply Forall_forall. intros x Hx. rewrite Forall_forall in Hz.
  assert (E : (x - m) * (x - m) = 0).
  { apply Hz. unfold sq. apply in_map_iff. eauto. }
  nra.
Qed.

Lemma std_zero_iff_zeros prices lookback fee :
  (2 <= length prices)%nat ->
  (std (strategy_ret prices lookback fee) = Some 0 <->
   Forall (fun x => x = 0) (strategy_ret prices lookback fee)).
Proof.
  intros Hn.
  assert (Hne : prices <> []) by (intros ->; simpl in Hn; lia).
  split.
  - intros H. destruct (std_zero_constant _ H) as (m & _ & Hm).
    assert (E : m = 0).
    { rewrite Forall_forall in Hm. symmetry.
      rewrite <- (strategy_ret_warm_up_0 prices lookback fee Hne).
      apply Hm. apply nth_In. rewrite strategy_ret_length. lia. }
    now rewrite E in Hm.
  - intros H. apply std_zeros; [|assumption].
    now rewrite strategy_ret_length.
Qed.

End ZeroDeviation.

(** ** Positive equity *)

Section PositiveEquity.
Import Pandas Utils.



End PositiveEquity.

(** ** Fees *)

Section Fees.
Import Pandas Utils.

(** A higher fee never raises a strategy return: period by period the
    return under the higher fee is at most the return under the lower
    one, and the two are equal at a period whose position is the position
    of the period before. *)
Theorem strategy_ret_decreases_with_fee prices lookback fee fee' t :
  fee <= fee' -> (t < length prices)%nat ->
  nth t (strategy_ret prices lookback fee') 0
    <= nth t (strategy_ret prices lookback fee) 0 /\
  (nth (t - 1) (pos prices lookback) 0 = nth t (pos prices lookback) 0 ->
   nth t (strategy_ret prices lookback fee') 0 =
   nth t (strategy_ret prices lookback fee) 0).
Proof.
  intros Hf Ht. destruct t as [|t].
  - assert (Hne : prices <> []) by (intros ->; simpl in Ht; lia).
    rewrite !strategy_ret_warm_up_0 by assumption.
    split; [lra | reflexivity].
  - rewrite !strategy_ret_nth_S by assumption.
    pose proof (Rabs_pos (nth (S t) (pos prices lookback) 0
                          - nth t (pos prices lookback) 0)) as Ha.
    split; [nra|].
    replace (S t - 1)%nat with t by lia. intros E. rewrite E.
    replace (nth (S t) (pos prices lookback) 0
             - nth (S t) (pos prices lookback) 0) with 0 by lra.
    rewrite Rabs_R0. lra.
Qed.

Lemma strategy_ret_decreases_with_fee_example :
  0.0001 <= 0.001 /\ (3 < length example_prices)%nat /\
  nth 3 (strategy_ret example_prices 3 0.001) 0
    <= nth 3 (strategy_ret example_prices 3 0.0001) 0 /\
  (nth (3 - 1) (pos example_prices 3) 0 = nth 3 (pos example_prices 3) 0 ->
   nth 3 (strategy_ret example_prices 3 0.001) 0 =
   nth 3 (strategy_ret example_prices 3 0.0001) 0).
Proof.
  assert (H : 0.0001 <= 0.001) by lra.
  assert (H' : (3 < length example_prices)%nat) by (simpl; lia).
  split; [exact H|]. split; [exact H'|].
  exact (strategy_ret_decreases_with_fee example_prices 3 0.0001 0.001 3 H H').
Defined.

End Fees.

(** ** The entry points *)

Section EntryPoints.
Import Pandas.

(** Once its arguments are parsed, [main] prints the result of the engine
    exactly when the window is positive, the fee is not negative, the data
    file exists and holds at least [window + 2] prices; the result is then
    the bundle the engine returns on these prices. *)
Theorem main_reports_engine_result window fee data r :
  CliBacktest.main window fee data = CliBacktest.Reported r <->
  (0 < window)%Z /\ 0 <= fee /\
  exists prices,
    data = Some prices /\
    (window + 2 <= Z.of_nat (length prices))%Z /\
    Utils.momentum_backtest prices window fee = inr r.
Proof.
  unfold CliBacktest.main.
  destruct (Z.leb_spec window 0) as [Hw|Hw].
  { split; [discriminate | intros (? & _); lia]. }
  destruct (Rlt_dec fee 0) as [Hf|Hf].
  { split; [discriminate | intros (_ & ? & _); lra]. }
  destruct data as [[|p prices]|].
  - split; [discriminate|].
    intros (_ & _ & ps & [= <-] & Hn & _). simpl in Hn. lia.
  - destruct (Utils.momentum_backtest (p :: prices) window fee)
      as [e|r'] eqn:E.
    + split; [discriminate|].
      intros (_ & _ & ps & [= <-] & _ & E'). congruence.
    + split.
      * intros [= <-]. split; [assumption|]. split; [lra|].
        exists (p :: prices). split; [reflexivity|]. split; [|assumption].
        unfold Utils.momentum_backtest in E.
        destruct (window <=? 0)%Z; [discriminate|].
        destruct (Z.ltb_spec (Z.of_nat (length (p :: prices))) (window + 2));
          [discriminate | assumption].
      * intros (_ & _ & ps & [= <-] & _ & E'). congruence.
  - split; [discriminate|]. intros (_ & _ & ps & [=] & _).
Qed.





End EntryPoints.

(** ** The exit signal of [vbt_backtest.py] *)

Section VbtSignals.
Import Pandas.

(** The long signal of the vectorbt script is the signal of the engine at
    window 3. *)
Lemma signal_of_long_signals prices :
  Utils.signal prices 3 = map astype_int (VbtBacktest.long_signals prices).
Proof.
  unfold Utils.signal, VbtBacktest.long_signals, VbtBacktest.momentum_sum.
  now rewrite map_map.
Qed.

Lemma long_signals_length prices :
  length (VbtBacktest.long_signals prices) = length prices.
Proof.
  unfold VbtBacktest.long_signals, VbtBacktest.momentum_sum,
    VbtBacktest.returns, pct_change.
  now rewrite length_map, rolling_sum_length, fillna_length, lagged_length.
Qed.

(** The long signal of the period before, [False] at the first period. *)
Lemma previous_long s :
  VbtBacktest.fillna_bool false (shift s) = firstn (length s) (false :: s).
Proof.
  unfold VbtBacktest.fillna_bool, shift. rewrite <- firstn_map. simpl.
  rewrite map_map, map_id. reflexivity.
Qed.

Lemma IZR_astype_int b : IZR (astype_int b) = if b then 1 else 0.
Proof. destruct b; reflexivity. Qed.

Lemma pos_of_long_signals prices t :
  (t < length prices)%nat ->
  nth t (Utils.pos prices 3) 0 =
  if nth t (firstn (length prices) (false :: VbtBacktest.long_signals prices))
         false
  then 1 else 0.
Proof.
  intros Ht. rewrite nth_firstn.
  destruct (Nat.ltb_spec t (length prices)); [|lia].
  apply nth_error_nth. destruct t as [|t].
  - apply pos_nth_error_0. intros ->. simpl in Ht. lia.
  - rewrite pos_nth_error_S by assumption.
    rewrite signal_of_long_signals, nth_error_map. simpl nth.
    rewrite (nth_error_nth' _ false) by (rewrite long_signals_length; lia).
    simpl. now rewrite IZR_astype_int.
Qed.

(** vectorbt is told to exit at period [t] exactly when the engine's
    position (at window 3) goes from 1 at [t] to 0 at [t + 1]. *)
Theorem exits_are_position_drops prices t :
  (S t < length prices)%nat ->
  (nth t (VbtBacktest.exits prices) false = true <->
   nth t (Utils.pos prices 3) 0 = 1 /\ nth (S t) (Utils.pos prices 3) 0 = 0).
Proof.
  intros Ht.
  rewrite !pos_of_long_signals by lia.
  set (long := VbtBacktest.long_signals prices).
  assert (Hl : length long = length prices) by apply long_signals_length.
  assert (Hx : nth t (VbtBacktest.exits prices) false =
               negb (nth t long false)
               && nth t (firstn (length prices) (false :: long)) false).
  { apply nth_error_nth. unfold VbtBacktest.exits. fold long.
    rewrite zip_with_nth_error, nth_error_map, previous_long, Hl.
    rewrite (nth_error_nth' long false) by lia.
    rewrite (nth_error_nth' (firstn _ _) false)
      by (rewrite length_firstn; simpl; lia).
    reflexivity. }
  rewrite Hx.
  assert (Hs : nth (S t) (firstn (length prices) (false :: long)) false =
               nth t long false).
  { rewrite nth_firstn. destruct (Nat.ltb_spec (S t) (length prices)); [|lia].
    reflexivity. }
  rewrite Hs.
  destruct (nth t long false),
           (nth t (firstn (length prices) (false :: long)) false);
    simpl; split; intros H; try discriminate; try reflexivity;
    try (split; lra); destruct H; lra.
Qed.

Lemma exits_are_position_drops_example :
  (S 4 < length example_prices)%nat /\
  (nth 4 (VbtBacktest.exits example_prices) false = true <->
   nth 4 (Utils.pos example_prices 3) 0 = 1 /\
   nth (S 4) (Utils.pos example_prices 3) 0 = 0).
Proof.
  assert (H : (S 4 < length example_prices)%nat) by (simpl; lia).
  split; [exact H|].
  exact (exits_are_position_drops example_prices 4 H).
Defined.

End VbtSignals.

(** ** The script on short series, and its warnings *)

Section ScriptEdges.
Import Pandas.

(** The script has no length check.  On a series of at most one price
    its Sharpe ratio is NaN and its CAGR is 0; its maximum drawdown is NaN
    on the empty series and 0 on a single price. *)
Theorem script_on_short_series prices :
  (length prices <= 1)%nat ->
  Backtest.script prices =
  {| Backtest.p_cagr := Some 0;
     Backtest.p_sharpe := None;
     Backtest.p_mdd := match prices with [] => None | _ => Some 0 end |}.
Proof.
  intros H. destruct prices as [|p [|q prices]]; [| |simpl in H; lia].
  - reflexivity.
  - unfold Backtest.script. f_equal.
    + unfold Backtest.cagr, Backtest.equity, Backtest.strategy_ret,
        Backtest.pos, Backtest.signal, Backtest.ret, iloc_last, pow_ratio.
      eval_series. eval_abs.
      replace (1 + (0 * 0 - Backtest.fee * 0)) with 1 by lra.
      destruct (Rlt_dec 0 1); [|lra].
      simpl. rewrite Rpower_one. f_equal. lra.
    + unfold Backtest.mdd, Backtest.equity, Backtest.strategy_ret,
        Backtest.pos, Backtest.signal, Backtest.ret.
      eval_series. eval_abs. f_equal. field.
Qed.

Lemma script_on_short_series_example :
  (length [100] <= 1)%nat /\
  Backtest.script [100] =
  {| Backtest.p_cagr := Some 0;
     Backtest.p_sharpe := None;
     Backtest.p_mdd := Some 0 |}.
Proof.
  assert (H : (length [100] <= 1)%nat) by (simpl; lia).
  split; [exact H|].
  exact (script_on_short_series [100] H).
Defined.

Lemma trade_returns_empty_iff sr :
  Plots.trade_returns sr = [] <-> Forall (fun x => x = 0) sr.
Proof.
  unfold Plots.trade_returns. induction sr as [|x sr IH]; simpl.
  - split; [constructor | reflexivity].
  - destruct (Req_dec_T x 0) as [E|E].
    + rewrite IH. split; [now constructor | now inversion 1].
    + split; [discriminate | inversion 1; contradiction].
Qed.

(** The two warnings of the script come together: on at least two prices
    with finite returns the zero-volatility guard of the Sharpe ratio is
    taken exactly when there is no trade return, that is when no histogram
    is saved. *)
Theorem zero_volatility_iff_no_histogram prices :
  finite_returns prices ->
  (2 <= length prices)%nat ->
  (std (Backtest.strategy_ret prices) = Some 0 <->
   ~ In Plots.Histogram (Plots.figures (Backtest.strategy_ret prices))).
Proof.
  intros _ Hn. rewrite script_strategy_ret.
  rewrite (std_zero_iff_zeros prices 3 Backtest.fee Hn).
  rewrite <- trade_returns_empty_iff. unfold Plots.figures.
  destruct (Plots.trade_returns _) as [|x l]; simpl.
  - split; [|reflexivity]. intros _ [H | [H | H]]; [discriminate.. | exact H].
  - split; [discriminate|]. intros H. exfalso. apply H. right. now left.
Qed.

Lemma zero_volatility_iff_no_histogram_example :
  finite_returns flat_prices /\
  (2 <= length flat_prices)%nat /\
  (std (Backtest.strategy_ret flat_prices) = Some 0 <->
   ~ In Plots.Histogram (Plots.figures (Backtest.strategy_ret flat_prices))).
Proof.
  assert (H : (2 <= length flat_prices)%nat) by (simpl; lia).
  split; [exact flat_finite_returns|]. split; [exact H|].
  exact (zero_volatility_iff_no_histogram flat_prices flat_finite_returns H).
Defined.

End ScriptEdges.

(** ** Causality *)

Section Causality.
Import Pandas Utils.

Lemma rolling_sum_firstn w s k :
  firstn k (rolling_sum w s) = rolling_sum w (firstn k s).
Proof.
  apply nth_error_ext. intros i. rewrite nth_error_firstn.
  destruct (Nat.ltb_spec i k) as [Hik|Hik].
  - destruct (Nat.lt_ge_cases i (length s)) as [Hi|Hi].
    + rewrite !rolling_sum_nth_error
        by (rewrite ?length_firstn; lia).
      destruct (Nat.ltb_spec (i + 1) w) as [Hw|Hw]; [reflexivity|].
      do 3 f_equal.
      rewrite (window_firstn w i s), (window_firstn w i (firstn k s))
        by assumption.
      rewrite firstn_firstn. do 2 f_equal. lia.
    + rewrite (proj2 (nth_error_None _ _)), (proj2 (nth_error_None _ _));
        [reflexivity | |];
        rewrite rolling_sum_length, ?length_firstn; lia.
  - symmetry. apply nth_error_None.
    rewrite rolling_sum_length, length_firstn. lia.
Qed.

Lemma scan_firstn f a s k :
  firstn k (scan f a s) = scan f a (firstn k s).
Proof.
  revert a s; induction k as [|k IH]; intros a [|x s]; simpl; auto.
  f_equal. apply IH.
Qed.

Lemma cumulative_firstn f s k :
  firstn k (cumulative f s) = cumulative f (firstn k s).
Proof.
  destruct k as [|k], s as [|x s]; simpl; auto.
  f_equal. apply scan_firstn.
Qed.

Lemma signal_firstn prices lookback k :
  firstn k (signal prices lookback) = signal (firstn k prices) lookback.
Proof.
  unfold signal. now rewrite firstn_map, rolling_sum_firstn, ret_firstn.
Qed.

Lemma pos_firstn prices lookback k :
  firstn k (pos prices lookback) = pos (firstn k prices) lookback.
Proof.
  unfold pos, fillna.
  now rewrite !firstn_map, shift_firstn, signal_firstn.
Qed.

Lemma strategy_ret_firstn prices lookback fee k :
  firstn k (strategy_ret prices lookback fee) =
  strategy_ret (firstn k prices) lookback fee.
Proof.
  unfold strategy_ret, abs, diff, fillna.
  rewrite !zip_with_firstn, !firstn_map, lagged_firstn.
  now rewrite pos_firstn, ret_firstn.
Qed.

(** The back-test never rewrites its past: the strategy returns and the
    equity of the first [k] periods are those of a run on the first [k]
    prices alone, so later prices change nothing before their period. *)
Theorem backtest_is_causal prices lookback fee k :
  firstn k (strategy_ret prices lookback fee) =
    strategy_ret (firstn k prices) lookback fee /\
  firstn k (equity (strategy_ret prices lookback fee)) =
    equity (strategy_ret (firstn k prices) lookback fee).
Proof.
  split; [apply strategy_ret_firstn|].
  unfold equity, cumprod.
  now rewrite cumulative_firstn, firstn_map, strategy_ret_firstn.
Qed.

End Causality.
